(** * Temple/Belton deal analyzer: the funnel pipeline, the output assembler
      and the orchestrator's write safeguard.

    The development follows the JavaScript sources:
    - [config.js]    the static configuration (module [Config]);
    - [analyze.js]   the metrics engine, the four funnel stages and the
                     output assembler (module [Analyze]);
    - [rentcast.js]  the API wrapper (module [Rentcast]);
    - [index.js]     the per-market orchestration and the persistence of
                     the results (module [Index]).

    JavaScript numbers are modelled as exact rationals extended with the
    three IEEE special values the code can produce by dividing by zero or
    by reading an absent field ([+Infinity], [-Infinity], [NaN]).
    Binary rounding of doubles and the sign of zero are abstracted away.
    A property of an object is an [option]: [None] is [undefined]. The
    console output and the delay between two requests are not modelled. *)

From Stdlib Require Import ZArith QArith Qround Lia Lqa.
From stdpp Require Import base option list gmap strings.

Local Open Scope Q_scope.

(* ===================================================================== *)
(** ** JavaScript numbers                                                  *)
(* ===================================================================== *)

Module JS.

Inductive num : Type :=
  | Fin (q : Q)
  | PInf
  | NInf
  | NaN.

(** Finite results are kept in lowest terms, so that a computed value has
    one representation. *)
Definition fin (q : Q) : num := Fin (Qred q).

Definition Qlt_bool (a b : Q) : bool := negb (Qle_bool b a).

Definition zero : num := Fin 0.

Definition Qsgn (q : Q) : comparison := (Qnum q ?= 0)%Z.

(** [inf_signed c] is the infinity whose sign is the sign [c] of a nonzero
    factor; a zero factor gives [NaN] (as in [Infinity * 0]). *)
Definition inf_signed (c : comparison) : num :=
  match c with
  | Gt => PInf
  | Lt => NInf
  | Eq => NaN
  end.

Definition flip (c : comparison) : comparison := CompOpp c.

(** [a + b] *)
Definition add (a b : num) : num :=
  match a, b with
  | NaN, _ | _, NaN => NaN
  | Fin x, Fin y => fin (x + y)
  | PInf, NInf | NInf, PInf => NaN
  | PInf, _ | _, PInf => PInf
  | NInf, _ | _, NInf => NInf
  end.

(** [a - b] *)
Definition sub (a b : num) : num :=
  match a, b with
  | NaN, _ | _, NaN => NaN
  | Fin x, Fin y => fin (x - y)
  | PInf, PInf | NInf, NInf => NaN
  | PInf, _ | _, NInf => PInf
  | NInf, _ | _, PInf => NInf
  end.

(** [a * b] *)
Definition mul (a b : num) : num :=
  match a, b with
  | NaN, _ | _, NaN => NaN
  | Fin x, Fin y => fin (x * y)
  | PInf, Fin y | Fin y, PInf => inf_signed (Qsgn y)
  | NInf, Fin y | Fin y, NInf => inf_signed (flip (Qsgn y))
  | PInf, PInf | NInf, NInf => PInf
  | PInf, NInf | NInf, PInf => NInf
  end.

(** [a / b]. A finite nonzero dividend over zero is an infinity, [0 / 0] is
    [NaN]; an infinity over zero keeps its sign. *)
Definition div (a b : num) : num :=
  match a, b with
  | NaN, _ | _, NaN => NaN
  | Fin x, Fin y =>
      if Qeq_bool y 0 then inf_signed (Qsgn x) else fin (x / y)
  | Fin _, PInf | Fin _, NInf => zero
  | PInf, Fin y => if Qlt_bool y 0 then NInf else PInf
  | NInf, Fin y => if Qlt_bool y 0 then PInf else NInf
  | PInf, PInf | PInf, NInf | NInf, PInf | NInf, NInf => NaN
  end.

(** The relational operators; every comparison with [NaN] is [false]. *)
Definition ltb (a b : num) : bool :=
  match a, b with
  | NaN, _ | _, NaN => false
  | Fin x, Fin y => Qlt_bool x y
  | NInf, NInf | PInf, _ => false
  | NInf, _ => true
  | Fin _, PInf => true
  | Fin _, NInf => false
  end.

Definition leb (a b : num) : bool :=
  match a, b with
  | NaN, _ | _, NaN => false
  | Fin x, Fin y => Qle_bool x y
  | NInf, _ => true
  | PInf, PInf => true
  | PInf, _ => false
  | Fin _, PInf => true
  | Fin _, NInf => false
  end.

Definition gtb (a b : num) : bool := ltb b a.
Definition geb (a b : num) : bool := leb b a.

(** [a === b] on numbers. *)
Definition eqb (a b : num) : bool :=
  match a, b with
  | Fin x, Fin y => Qeq_bool x y
  | PInf, PInf | NInf, NInf => true
  | _, _ => false
  end.

Definition is_nan (a : num) : bool :=
  match a with NaN => true | _ => false end.

(** ToBoolean on a number: [0] and [NaN] are falsy. *)
Definition truthy (a : num) : bool :=
  match a with
  | Fin q => negb (Qeq_bool q 0)
  | PInf | NInf => true
  | NaN => false
  end.

(** [Math.round]: the nearest integer, ties towards [+Infinity]. *)
Definition round (a : num) : num :=
  match a with
  | Fin q => fin (inject_Z (Qfloor (q + (1 # 2))))
  | _ => a
  end.

(** [Math.min(x, y)] and [Math.min(...xs)]; the empty call is [Infinity]. *)
Definition min2 (a b : num) : num :=
  match a, b with
  | NaN, _ | _, NaN => NaN
  | _, _ => if leb a b then a else b
  end.

Definition min_list (xs : list num) : num := foldr min2 PInf xs.

(** A property read from an object: [None] is [undefined]. ToNumber of
    [undefined] is [NaN]; a field that came out of JSON is a finite
    number. *)
Definition to_number (v : option num) : num := default NaN v.
Definition of_json (v : option Q) : option num := Fin <$> v.
Definition json_number (v : option Q) : num := to_number (of_json v).

(** ToBoolean on a numeric property that may be absent. *)
Definition truthy_prop (v : option num) : bool :=
  match v with Some a => truthy a | None => false end.
Definition truthy_json (v : option Q) : bool := truthy_prop (of_json v).

(** ToBoolean on a string property: absent and empty are falsy. *)
Definition truthy_str (v : option string) : bool :=
  match v with
  | Some s => negb (String.eqb s EmptyString)
  | None => false
  end.

(** [a || b] on string properties. *)
Definition or_str (a b : option string) : option string :=
  if truthy_str a then a else b.

(** A string property inside a template literal. *)
Definition tpl (v : option string) : string := default "undefined"%string v.

End JS.

(* ===================================================================== *)
(** ** config.js                                                           *)
(* ===================================================================== *)

Module Config.

Record Location := { loc_city : string; loc_state : string }.

Record Market := {
  market_id : string;
  market_name : string;
  cities : list Location;
  zipCodes : list string;
}.

Record Api := {
  baseUrl : string;
  requestDelay : nat;
}.

Record Filters := {
  minPrice : Q;
  maxPrice : Q;
  propertyTypes : list string;
  status : string;
  minBedrooms : Q;
  limitPerCity : nat;
}.

Record Analysis := {
  minYieldThreshold : Q;
  heuristicRentPerSqft : Q;
  maxPropertiesToAnalyze : nat;
  topDealsCount : nat;
  propertyTaxRate : Q;
  vacancyRate : Q;
  managementFee : Q;
}.

Record Output := {
  directory : string;
  files : gmap string string;
}.

Record t := {
  api : Api;
  markets : list Market;
  filters : Filters;
  analysis : Analysis;
  output : Output;
}.

Definition temple_belton : Market :=
  {| market_id := "temple-belton";
     market_name := "Temple / Belton";
     cities := [ {| loc_city := "Temple"; loc_state := "TX" |};
                 {| loc_city := "Belton"; loc_state := "TX" |} ];
     zipCodes := ["76501"; "76502"; "76503"; "76504"; "76513"] |}%string.

Definition harker_heights : Market :=
  {| market_id := "harker-heights";
     market_name := "Harker Heights";
     cities := [ {| loc_city := "Harker Heights"; loc_state := "TX" |} ];
     zipCodes := ["76548"] |}%string.

Definition killeen : Market :=
  {| market_id := "killeen";
     market_name := "Killeen";
     cities := [ {| loc_city := "Killeen"; loc_state := "TX" |} ];
     zipCodes := ["76540"; "76541"; "76542"; "76543"; "76549"] |}%string.

(** The exported configuration object. *)
Definition config : t :=
  {| api := {| baseUrl := "https://api.rentcast.io/v1"; requestDelay := 250 |};
     markets := [temple_belton; harker_heights; killeen];
     filters :=
       {| minPrice := 100000; maxPrice := 450000;
          propertyTypes := ["Single Family"; "Multi-Family"]%string;
          status := "Active";
          minBedrooms := 2;
          limitPerCity := 500 |};
     analysis :=
       {| minYieldThreshold := 6;
          heuristicRentPerSqft := 1;
          maxPropertiesToAnalyze := 50;
          topDealsCount := 10;
          propertyTaxRate := 24 # 1000;
          vacancyRate := 8 # 100;
          managementFee := 10 # 100 |};
     output :=
       {| directory := "./data";
          files :=
            <["temple-belton"%string := "temple-belton-deals.json"%string]>
            (<["harker-heights"%string := "harker-heights-deals.json"%string]>
            (<["killeen"%string := "killeen-deals.json"%string]> ∅)) |} |}.

End Config.

(* ===================================================================== *)
(** ** The records that travel through the pipeline                        *)
(* ===================================================================== *)

(** A listing as the listings API returns it. Every property may be
    absent; numeric properties come out of JSON and are finite. *)
Record Property := {
  id : option string;
  listingId : option string;
  addressLine1 : option string;
  formattedAddress : option string;
  city : option string;
  state : option string;
  zipCode : option string;
  price : option Q;
  bedrooms : option Q;
  bathrooms : option Q;
  squareFootage : option Q;
  yearBuilt : option Q;
  propertyType : option string;
  daysOnMarket : option Q;
  listingDate : option string;
  primaryPhoto : option string;
  photos : option (list string);
  listingUrl : option string;
}.

(** The listing object of the pipeline: the API record together with the
    properties the stages attach to it by object spread. *)
Record Listing := {
  prop : Property;
  marketId : option string;
  marketName : option string;
  heuristicYield : option JS.num;
  rentEstimate : option Q;
  rentRangeLow : option Q;
  rentRangeHigh : option Q;
  grossYield : option JS.num;
  monthlyCashFlow : option JS.num;
  annualRent : option JS.num;
  grm : option JS.num;
  meetsOnePercentRule : option bool;
}.

(** [{...listing, marketId, marketName}] on an API record. *)
Definition with_market (p : Property) (mid mname : string) : Listing :=
  {| prop := p; marketId := Some mid; marketName := Some mname;
     heuristicYield := None; rentEstimate := None; rentRangeLow := None;
     rentRangeHigh := None; grossYield := None; monthlyCashFlow := None;
     annualRent := None; grm := None; meetsOnePercentRule := None |}.

(** [{...listing, heuristicYield}] *)
Definition with_heuristicYield (l : Listing) (hy : JS.num) : Listing :=
  {| prop := prop l; marketId := marketId l; marketName := marketName l;
     heuristicYield := Some hy;
     rentEstimate := rentEstimate l; rentRangeLow := rentRangeLow l;
     rentRangeHigh := rentRangeHigh l; grossYield := grossYield l;
     monthlyCashFlow := monthlyCashFlow l; annualRent := annualRent l;
     grm := grm l; meetsOnePercentRule := meetsOnePercentRule l |}.

(** [{...property, rentEstimate, rentRangeLow, rentRangeHigh}] *)
Definition with_rent (l : Listing) (rent lo hi : option Q) : Listing :=
  {| prop := prop l; marketId := marketId l; marketName := marketName l;
     heuristicYield := heuristicYield l;
     rentEstimate := rent; rentRangeLow := lo; rentRangeHigh := hi;
     grossYield := grossYield l;
     monthlyCashFlow := monthlyCashFlow l; annualRent := annualRent l;
     grm := grm l; meetsOnePercentRule := meetsOnePercentRule l |}.

(** [{...listing, grossYield, monthlyCashFlow, annualRent, grm,
      meetsOnePercentRule}] *)
Definition with_metrics (l : Listing)
    (gy cf ar g : JS.num) (one : bool) : Listing :=
  {| prop := prop l; marketId := marketId l; marketName := marketName l;
     heuristicYield := heuristicYield l;
     rentEstimate := rentEstimate l; rentRangeLow := rentRangeLow l;
     rentRangeHigh := rentRangeHigh l;
     grossYield := Some gy; monthlyCashFlow := Some cf;
     annualRent := Some ar; grm := Some g;
     meetsOnePercentRule := Some one |}.

(** The public record of a deal. [d_primaryPhoto] and [d_listingUrl] are
    [null] when [None]; every other [None] is [undefined]. *)
Record Deal := {
  rank : nat;
  d_id : string;
  d_address : option string;
  d_city : option string;
  d_state : option string;
  d_zipCode : option string;
  d_price : option Q;
  d_bedrooms : option Q;
  d_bathrooms : option Q;
  d_squareFootage : option Q;
  d_yearBuilt : option Q;
  d_propertyType : option string;
  estMonthlyRent : option Q;
  estAnnualRent : option JS.num;
  d_grossYield : option JS.num;
  estMonthlyCashFlow : option JS.num;
  d_grm : option JS.num;
  d_meetsOnePercentRule : option bool;
  d_rentRangeLow : option Q;
  d_rentRangeHigh : option Q;
  d_daysOnMarket : option Q;
  d_listingDate : option string;
  d_primaryPhoto : option string;
  d_listingUrl : option string;
  d_marketId : option string;
  d_marketName : option string;
}.

Record Summary := {
  totalDeals : nat;
  avgGrossYield : JS.num;
  avgPrice : JS.num;
  avgMonthlyRent : JS.num;
  topYield : option JS.num;
  lowestPrice : JS.num;
}.

Record MarketOutput := {
  mo_market_id : string;
  mo_market_name : string;
  lastUpdated : string;
  summary : Summary;
  deals : list Deal;
}.

(* ===================================================================== *)
(** ** Array.prototype.sort                                                *)
(* ===================================================================== *)

(** [Array.prototype.sort(comparefn)] is a stable sort (ECMAScript 2019).
    The comparison of two elements is the number the callback returns,
    with [NaN] read as [+0]; [x] is placed before [y] when that number is
    negative. The model is the stable insertion sort; for a consistent
    comparator every stable sort returns this list. *)
Section Sort.
Context {A : Type}.
Variable comparefn : A -> A -> JS.num.

Definition sort_compare (x y : A) : JS.num :=
  let v := comparefn x y in
  if JS.is_nan v then JS.zero else v.

Fixpoint sort_insert (x : A) (l : list A) : list A :=
  match l with
  | [] => [x]
  | y :: l' =>
      if JS.ltb (sort_compare y x) JS.zero
      then y :: sort_insert x l'
      else x :: y :: l'
  end.

Fixpoint sort (l : list A) : list A :=
  match l with
  | [] => []
  | x :: l' => sort_insert x (sort l')
  end.
End Sort.

(* ===================================================================== *)
(** ** analyze.js                                                          *)
(* ===================================================================== *)

Module Analyze.
Import Config.

Definition num_of_nat (n : nat) : JS.num := JS.Fin (inject_Z (Z.of_nat n)).

(** [price === 0] *)
Definition is_zero_prop (v : option JS.num) : bool :=
  match v with Some a => JS.eqb a JS.zero | None => false end.

Definition calculateGrossYield (annualRent : JS.num) (price : option JS.num)
    : JS.num :=
  if negb (JS.truthy_prop price) || is_zero_prop price then JS.zero
  else JS.mul (JS.div annualRent (JS.to_number price)) (JS.Fin 100).

Section WithConfig.
Variable config : Config.t.

Definition calculateMonthlyCashFlow (monthlyRent : JS.num)
    (price : option JS.num) : JS.num :=
  let annualTaxes :=
    JS.mul (JS.to_number price) (JS.Fin (propertyTaxRate (analysis config))) in
  let monthlyTaxes := JS.div annualTaxes (JS.Fin 12) in
  let vacancyLoss :=
    JS.mul monthlyRent (JS.Fin (vacancyRate (analysis config))) in
  let managementCost :=
    JS.mul monthlyRent (JS.Fin (managementFee (analysis config))) in
  let estimatedExpenses :=
    JS.add (JS.add monthlyTaxes vacancyLoss) managementCost in
  JS.sub monthlyRent estimatedExpenses.

(** The heuristic yield both stage 1 and stage 2 compute from the
    square footage. *)
Definition heuristicYieldOf (listing : Listing) : JS.num :=
  let estimatedMonthlyRent :=
    JS.mul (JS.json_number (squareFootage (prop listing)))
           (JS.Fin (heuristicRentPerSqft (analysis config))) in
  let estimatedAnnualRent := JS.mul estimatedMonthlyRent (JS.Fin 12) in
  calculateGrossYield estimatedAnnualRent (JS.of_json (price (prop listing))).

(** The callback of the filter of stage 1. *)
Definition passesHeuristic (listing : Listing) : bool :=
  if negb (JS.truthy_json (price (prop listing)))
     || negb (JS.truthy_json (squareFootage (prop listing)))
  then false
  else JS.geb (heuristicYieldOf listing)
              (JS.Fin (minYieldThreshold (analysis config))).

Definition applyHeuristicFilter (listings : list Listing) : list Listing :=
  List.filter passesHeuristic listings.

Definition byHeuristicYield (a b : Listing) : JS.num :=
  JS.sub (JS.to_number (heuristicYield b)) (JS.to_number (heuristicYield a)).

Definition selectTopCandidates (listings : list Listing) : list Listing :=
  let withHeuristicYield :=
    map (fun listing => with_heuristicYield listing (heuristicYieldOf listing))
        listings in
  let sorted := sort byHeuristicYield withHeuristicYield in
  take (maxPropertiesToAnalyze (analysis config)) sorted.

(** The callback of the map of stage 3. *)
Definition metricsOf (listing : Listing) : Listing :=
  let monthlyRent := JS.json_number (rentEstimate listing) in
  let annualRent := JS.mul monthlyRent (JS.Fin 12) in
  let price := JS.of_json (price (prop listing)) in
  let grossYield := calculateGrossYield annualRent price in
  let monthlyCashFlow := calculateMonthlyCashFlow monthlyRent price in
  let grm := JS.div (JS.to_number price) annualRent in
  let onePercentRule :=
    JS.geb monthlyRent (JS.mul (JS.to_number price) (JS.Fin (1 # 100))) in
  with_metrics listing
    (JS.div (JS.round (JS.mul grossYield (JS.Fin 10))) (JS.Fin 10))
    (JS.round monthlyCashFlow)
    annualRent
    (JS.div (JS.round (JS.mul grm (JS.Fin 10))) (JS.Fin 10))
    onePercentRule.

Definition calculateInvestmentMetrics (listings : list Listing)
    : list Listing :=
  map metricsOf listings.

Definition byGrossYield (a b : Listing) : JS.num :=
  JS.sub (JS.to_number (grossYield b)) (JS.to_number (grossYield a)).

Definition rankAndSelectTopDeals (listings : list Listing) : list Listing :=
  let sorted := sort byGrossYield listings in
  take (topDealsCount (analysis config)) sorted.
End WithConfig.

(** [x || null] on a string property. *)
Definition or_null (x : option string) : option string :=
  if JS.truthy_str x then x else None.

Definition formatDealForOutput (listing : Listing) (rank : nat) : Deal :=
  let p := prop listing in
  {| rank := rank;
     d_id :=
       default (JS.tpl (addressLine1 p) +:+ "-" +:+ JS.tpl (zipCode p))
               (or_null (JS.or_str (id p) (listingId p)));
     d_address := JS.or_str (formattedAddress p) (addressLine1 p);
     d_city := city p;
     d_state := state p;
     d_zipCode := zipCode p;
     d_price := price p;
     d_bedrooms := bedrooms p;
     d_bathrooms := bathrooms p;
     d_squareFootage := squareFootage p;
     d_yearBuilt := yearBuilt p;
     d_propertyType := propertyType p;
     estMonthlyRent := rentEstimate listing;
     estAnnualRent := annualRent listing;
     d_grossYield := grossYield listing;
     estMonthlyCashFlow := monthlyCashFlow listing;
     d_grm := grm listing;
     d_meetsOnePercentRule := meetsOnePercentRule listing;
     d_rentRangeLow := rentRangeLow listing;
     d_rentRangeHigh := rentRangeHigh listing;
     d_daysOnMarket := daysOnMarket p;
     d_listingDate := listingDate p;
     d_primaryPhoto :=
       or_null (JS.or_str (primaryPhoto p) (photos p ≫= head));
     d_listingUrl := or_null (listingUrl p);
     d_marketId := marketId listing;
     d_marketName := marketName listing |}.

(** [deals.reduce((sum, d) => sum + f(d), 0)] *)
Definition sum_by (f : Listing -> JS.num) (deals : list Listing) : JS.num :=
  foldl (fun sum d => JS.add sum (f d)) JS.zero deals.

(** [now] is the value of [new Date().toISOString()] at the call. *)
Definition createMarketOutput (deals : list Listing) (market : Market)
    (now : string) : MarketOutput :=
  let formattedDeals :=
    imap (fun index deal => formatDealForOutput deal (index + 1)) deals in
  let len := num_of_nat (length deals) in
  let nonempty := JS.gtb len JS.zero in
  let avgYield :=
    if nonempty
    then JS.div
           (JS.round
              (JS.mul
                 (JS.div (sum_by (fun d => JS.to_number (grossYield d)) deals)
                         len)
                 (JS.Fin 10)))
           (JS.Fin 10)
    else JS.zero in
  let avgPrice :=
    if nonempty
    then JS.round
           (JS.div (sum_by (fun d => JS.json_number (price (prop d))) deals) len)
    else JS.zero in
  let avgRent :=
    if nonempty
    then JS.round
           (JS.div (sum_by (fun d => JS.json_number (rentEstimate d)) deals) len)
    else JS.zero in
  {| mo_market_id := market_id market;
     mo_market_name := market_name market;
     lastUpdated := now;
     summary :=
       {| totalDeals := length formattedDeals;
          avgGrossYield := avgYield;
          avgPrice := avgPrice;
          avgMonthlyRent := avgRent;
          topYield :=
            match formattedDeals with
            | d :: _ => d_grossYield d
            | [] => Some JS.zero
            end;
          lowestPrice :=
            match formattedDeals with
            | _ :: _ =>
                JS.min_list (map (fun d => JS.json_number (d_price d))
                                 formattedDeals)
            | [] => JS.zero
            end |};
     deals := formattedDeals |}.

End Analyze.

(* ===================================================================== *)
(** ** rentcast.js                                                         *)
(* ===================================================================== *)

Module Rentcast.
Import Config.

(** The query of [GET /listings/sale]. *)
Record ListingsQuery := {
  q_city : string;
  q_state : string;
  q_status : string;
  q_propertyType : string;
  q_price : Q * Q;
  q_bedrooms : Q;
  q_limit : nat;
}.

(** The query of [GET /avm/rent]. *)
Record RentQuery := {
  q_address : string;
  q_rentPropertyType : string;
  q_rentBedrooms : Q;
  q_bathrooms : Q;
  q_squareFootage : Q;
}.

(** The body of a rent estimate. *)
Record RentData := {
  rent : option Q;
  rd_rentRangeLow : option Q;
  rd_rentRangeHigh : option Q;
}.

(** What [await api.get(...)] does: it throws, or it resolves to a response
    whose [data] may be absent. *)
Inductive response (A : Type) : Type :=
  | Throws
  | Data (data : option A).
Arguments Throws {A}.
Arguments Data {A} data.

(** The remote service, taken as a function of the query: what it answers
    to a request does not depend on the requests before it. *)
Record Service := {
  listings_sale : ListingsQuery -> response (list Property);
  avm_rent : RentQuery -> response RentData;
}.

(** The module-level counter [apiCallCount] is threaded through every
    function that touches it. *)
Definition M (A : Type) : Type := nat -> A * nat.
Definition ret {A} (a : A) : M A := fun n => (a, n).
Definition bind {A B} (m : M A) (k : A -> M B) : M B :=
  fun n => let (a, n') := m n in k a n'.
Definition incrApiCallCount : M unit := fun n => (tt, S n).
Definition getApiCallCount : M nat := fun n => (n, n).
Definition resetApiCallCount : M unit := fun _ => (tt, 0%nat).

Notation "'let*' x := m 'in' k" := (bind m (fun x => k))
  (at level 10, x name, m at level 100, k at level 200).

(** [xs.join(sep)] *)
Fixpoint join (sep : string) (xs : list string) : string :=
  match xs with
  | [] => EmptyString
  | [x] => x
  | x :: xs' => x +:+ sep +:+ join sep xs'
  end.

(** [x || d] on a JSON number. *)
Definition or_num (x : option Q) (d : Q) : Q :=
  match x with
  | Some q => if Qeq_bool q 0 then d else q
  | None => d
  end.

Section WithService.
Variable config : Config.t.
Variable service : Service.

Definition getListings (city state : string) : M (list Property) :=
  let params :=
    {| q_city := city;
       q_state := state;
       q_status := status (filters config);
       q_propertyType := join "|" (propertyTypes (filters config));
       q_price := (minPrice (filters config), maxPrice (filters config));
       q_bedrooms := minBedrooms (filters config);
       q_limit := limitPerCity (filters config) |} in
  match listings_sale service params with
  | Data data =>
      let* _ := incrApiCallCount in
      ret (default [] data)
  | Throws => ret []
  end.

Definition getRentEstimate (address : string)
    (bedrooms bathrooms squareFootage : option Q) : M (option RentData) :=
  let params :=
    {| q_address := address;
       q_rentPropertyType := "Single Family";
       q_rentBedrooms := or_num bedrooms 3;
       q_bathrooms := or_num bathrooms 2;
       q_squareFootage := or_num squareFootage 1500 |} in
  match avm_rent service params with
  | Data data =>
      let* _ := incrApiCallCount in
      ret data
  | Throws => ret None
  end.

(** The loop over [market.cities]. *)
Fixpoint listingsOfCities (market : Market) (locations : list Location)
    (allListings : list Listing) : M (list Listing) :=
  match locations with
  | [] => ret allListings
  | location :: rest =>
      let* listings :=
        getListings (loc_city location) (loc_state location) in
      let enrichedListings :=
        map (fun listing =>
               with_market listing (market_id market) (market_name market))
            listings in
      listingsOfCities market rest (allListings ++ enrichedListings)
  end.

Definition getListingsForMarket (market : Market) : M (list Listing) :=
  listingsOfCities market (cities market) [].

(** [[a, b, c, d].filter(Boolean).join(', ')] *)
Definition fullAddress (property : Listing) : string :=
  let p := prop property in
  join ", "
    (omap (fun s => if JS.truthy_str s then s else None)
          [ JS.or_str (formattedAddress p) (addressLine1 p);
            city p; state p; zipCode p ]).

(** The loop of [enrichWithRentEstimates]; the orchestrator passes no
    progress callback. *)
Fixpoint enrichLoop (properties : list Listing) (enriched : list Listing)
    : M (list Listing) :=
  match properties with
  | [] => ret enriched
  | property :: rest =>
      let p := prop property in
      let* rentData :=
        getRentEstimate (fullAddress property)
          (bedrooms p) (bathrooms p) (squareFootage p) in
      let enriched' :=
        match rentData with
        | Some data =>
            if JS.truthy_json (rent data)
            then enriched ++ [with_rent property (rent data)
                                (rd_rentRangeLow data) (rd_rentRangeHigh data)]
            else enriched
        | None => enriched
        end in
      enrichLoop rest enriched'
  end.

Definition enrichWithRentEstimates (properties : list Listing)
    : M (list Listing) :=
  enrichLoop properties [].
End WithService.

End Rentcast.

(* ===================================================================== *)
(** ** index.js                                                            *)
(* ===================================================================== *)

Module Index.
Import Config.

(** A file of the output directory holds the JSON text of a market output,
    as [writeOutput] produced it in this run or an earlier one; the disk
    maps a path to the document its file holds, and [JSON.parse] of the
    file gives that document back. *)
Record World := {
  apiCallCount : nat;
  disk : gmap string MarketOutput;
}.

(** [path.join(directory, filename)], as the key of the file. *)
Definition path_join (directory filename : string) : string :=
  directory +:+ "/" +:+ filename.

Section WithService.
Variable config : Config.t.
Variable service : Rentcast.Service.
(** The clock: the timestamp a market's output is stamped with. *)
Variable now : Market -> string.

Import Rentcast.

(** No stage of the model raises, so the [catch] of the source (which
    answers with the empty output) has nothing to catch. *)
Definition processMarket (market : Market) : M MarketOutput :=
  let* rawListings := getListingsForMarket config service market in
  match rawListings with
  | [] => ret (Analyze.createMarketOutput [] market (now market))
  | _ :: _ =>
      let filteredListings :=
        Analyze.applyHeuristicFilter config rawListings in
      match filteredListings with
      | [] => ret (Analyze.createMarketOutput [] market (now market))
      | _ :: _ =>
          let topCandidates :=
            Analyze.selectTopCandidates config filteredListings in
          let* withRentEstimates :=
            enrichWithRentEstimates service topCandidates in
          match withRentEstimates with
          | [] => ret (Analyze.createMarketOutput [] market (now market))
          | _ :: _ =>
              let withMetrics :=
                Analyze.calculateInvestmentMetrics config withRentEstimates in
              let topDeals :=
                Analyze.rankAndSelectTopDeals config withMetrics in
              ret (Analyze.createMarketOutput topDeals market (now market))
          end
      end
  end.

Definition writeOutput (data : MarketOutput) (filename : string)
    (d : gmap string MarketOutput) : gmap string MarketOutput :=
  let outputPath := path_join (directory (output config)) filename in
  <[outputPath := data]> d.

Definition validateOutput (data : MarketOutput) (existingPath : string)
    (d : gmap string MarketOutput) : MarketOutput :=
  match deals data, d !! existingPath with
  | [], Some existing =>
      match deals existing with
      | _ :: _ => existing
      | [] => data
      end
  | _, _ => data
  end.

(** Lines 131-135 of [main]: the file name of the market, the validation
    against the file already there, the write. Without a configured file
    name [path.join] raises and the run aborts ([None]). *)
Definition persist (market : Market) (output : MarketOutput)
    (d : gmap string MarketOutput) : option (gmap string MarketOutput) :=
  match files (Config.output config) !! market_id market with
  | Some filename =>
      let outputPath := path_join (directory (Config.output config)) filename in
      let validatedOutput := validateOutput output outputPath d in
      Some (writeOutput validatedOutput filename d)
  | None => None
  end.

(** The loop of [main] over [config.markets]. [inl w] is the world in
    which the run aborted, [inr w] the world after the last market. *)
Fixpoint mainLoop (ms : list Market) (w : World) : World + World :=
  match ms with
  | [] => inr w
  | market :: rest =>
      let (output, calls) := processMarket market (apiCallCount w) in
      match persist market output (disk w) with
      | Some d => mainLoop rest {| apiCallCount := calls; disk := d |}
      | None => inl {| apiCallCount := calls; disk := disk w |}
      end
  end.

Definition main (w : World) : World + World :=
  let (_, calls) := resetApiCallCount (apiCallCount w) in
  mainLoop (markets config) {| apiCallCount := calls; disk := disk w |}.
End WithService.

End Index.

(* ===================================================================== *)
(** ** The two-listing scenario                                            *)
(* ===================================================================== *)

Module Scenario.
Import Config.

Definition bare : Property :=
  {| id := None; listingId := None; addressLine1 := None;
     formattedAddress := None; city := None; state := None; zipCode := None;
     price := None; bedrooms := None; bathrooms := None;
     squareFootage := None; yearBuilt := None; propertyType := None;
     daysOnMarket := None; listingDate := None; primaryPhoto := None;
     photos := None; listingUrl := None |}.

(** A property that has an address, a price and a square footage. *)
Definition property (address : string) (price sqft : Q) : Property :=
  {| id := None; listingId := None; addressLine1 := None;
     formattedAddress := Some address;
     city := None; state := None; zipCode := None;
     price := Some price; bedrooms := None; bathrooms := None;
     squareFootage := Some sqft; yearBuilt := None; propertyType := None;
     daysOnMarket := None; listingDate := None; primaryPhoto := None;
     photos := None; listingUrl := None |}.

Definition A : Property := property "A" 200000 1600.
Definition B : Property := property "B" 300000 1200.

Definition rentOf (monthly : Q) : Rentcast.RentData :=
  {| Rentcast.rent := Some monthly;
     Rentcast.rd_rentRangeLow := None;
     Rentcast.rd_rentRangeHigh := None |}.

(** Temple lists A and B, every other city nothing; the rent estimate of A
    is 1800 a month and that of B 1500. *)
Definition service : Rentcast.Service :=
  {| Rentcast.listings_sale := fun q =>
       if String.eqb (Rentcast.q_city q) "Temple"
       then Rentcast.Data (Some [A; B])
       else Rentcast.Data (Some []);
     Rentcast.avm_rent := fun q =>
       if String.eqb (Rentcast.q_address q) "A"
       then Rentcast.Data (Some (rentOf 1800))
       else if String.eqb (Rentcast.q_address q) "B"
       then Rentcast.Data (Some (rentOf 1500))
       else Rentcast.Throws |}.

Definition now (_ : Market) : string := "2025-02-01T08:00:00.000Z".

Definition listingA : Listing :=
  with_market A (market_id temple_belton) (market_name temple_belton).
Definition listingB : Listing :=
  with_market B (market_id temple_belton) (market_name temple_belton).

(** The output of the run of the pipeline on the market. *)
Definition result : MarketOutput :=
  fst (Index.processMarket config service now temple_belton 0%nat).

(** Further listings for the examples. *)
Definition C : Property := property "C" 150000 1500.

(** A listing that has a price and no square footage. *)
Definition D : Property :=
  {| id := None; listingId := None; addressLine1 := None;
     formattedAddress := Some "D";
     city := None; state := None; zipCode := None;
     price := Some 100000; bedrooms := None; bathrooms := None;
     squareFootage := None; yearBuilt := None; propertyType := None;
     daysOnMarket := None; listingDate := None; primaryPhoto := None;
     photos := None; listingUrl := None |}.

(** A listing whose price is the number zero. *)
Definition Z : Property := property "Z" 0 1000.

Definition listing (p : Property) : Listing :=
  with_market p (market_id temple_belton) (market_name temple_belton).

(** A candidate with the rent estimate [monthly]. *)
Definition enriched (p : Property) (monthly : Q) : Listing :=
  with_rent (listing p) (Some monthly) None None.

Definition withMetrics : list Listing :=
  Analyze.calculateInvestmentMetrics config
    [enriched B 1500; enriched A 1800; enriched C 1350].

(** A service whose rent estimate is the number zero for every address. *)
Definition zeroRentService : Rentcast.Service :=
  {| Rentcast.listings_sale := fun _ => Rentcast.Data (Some []);
     Rentcast.avm_rent := fun _ => Rentcast.Data (Some (rentOf 0)) |}.

(** A service that is down. *)
Definition deadService : Rentcast.Service :=
  {| Rentcast.listings_sale := fun _ => Rentcast.Throws;
     Rentcast.avm_rent := fun _ => Rentcast.Throws |}.

(** A document with five deals, as an earlier run left it on the disk. *)
Definition fiveDeals : MarketOutput :=
  Analyze.createMarketOutput
    (Analyze.calculateInvestmentMetrics config
       [enriched A 1800; enriched A 1700; enriched C 1350;
        enriched B 1500; enriched C 1200])
    temple_belton "2025-01-26T09:00:00.000Z".

Definition emptyOutput : MarketOutput :=
  Analyze.createMarketOutput [] temple_belton "2025-02-01T08:00:00.000Z".

(** The disk an earlier run left: the file of Temple / Belton with its
    five deals, and nothing else. *)
Definition templePath : string :=
  Index.path_join (directory (output config)) "temple-belton-deals.json".

Definition disk : gmap string MarketOutput := {[ templePath := fiveDeals ]}.

(** The exported configuration with both caps lowered to two. *)
Definition topTwo : Config.t :=
  {| api := api config;
     markets := markets config;
     filters := filters config;
     analysis :=
       {| minYieldThreshold := 6;
          heuristicRentPerSqft := 1;
          maxPropertiesToAnalyze := 2;
          topDealsCount := 2;
          propertyTaxRate := 24 # 1000;
          vacancyRate := 8 # 100;
          managementFee := 10 # 100 |};
     output := output config |}.

End Scenario.

(* ===================================================================== *)
(** ** Vocabulary of the properties                                        *)
(* ===================================================================== *)

Section Ordering.
Context {A : Type}.
Variable key : A -> JS.num.

(** The comparator [(a, b) => key(b) - key(a)] of both sorts. *)
Definition by_key (a b : A) : JS.num := JS.sub (key b) (key a).

(** The key of the element is a number. *)
Definition numeric (a : A) : Prop := JS.is_nan (key a) = false.

(** Every adjacent pair is in descending order of the key. *)
Fixpoint descending (l : list A) : Prop :=
  match l with
  | a :: (b :: _) as t => JS.geb (key a) (key b) = true /\ descending t
  | _ => True
  end.

(** The key of the element equals [g]. *)
Definition tied (g : JS.num) (a : A) : bool := JS.eqb (key a) g.
End Ordering.

(** The keys of the two sorts of the pipeline. *)
Definition heuristicYieldKey (l : Listing) : JS.num :=
  JS.to_number (heuristicYield l).
Definition grossYieldKey (l : Listing) : JS.num :=
  JS.to_number (grossYield l).

(** A metrics-bearing listing carries a gross yield that is a number. *)
Definition metrics_bearing (l : Listing) : Prop := numeric grossYieldKey l.

(** The yield formula of the heuristic filter, for a square footage [s]
    and a price [p]: [(s * heuristicRentPerSqft * 12) / p * 100]. *)
Definition heuristicFormula (config : Config.t) (s p : Q) : JS.num :=
  JS.mul
    (JS.div
       (JS.mul
          (JS.mul (JS.Fin s)
                  (JS.Fin (Config.heuristicRentPerSqft (Config.analysis config))))
          (JS.Fin 12))
       (JS.Fin p))
    (JS.Fin 100).

(** The listing has a price and a square footage, and the formula reaches
    the threshold. *)
Definition reachesThreshold (config : Config.t) (l : Listing) : Prop :=
  exists p s : Q,
    price (prop l) = Some p /\ squareFootage (prop l) = Some s /\
    JS.geb (heuristicFormula config s p)
           (JS.Fin (Config.minYieldThreshold (Config.analysis config))) = true.

(** The same, with a price and a square footage that are not zero. *)
Definition reachesThresholdNonzero (config : Config.t) (l : Listing) : Prop :=
  exists p s : Q,
    price (prop l) = Some p /\ ~ p == 0 /\
    squareFootage (prop l) = Some s /\ ~ s == 0 /\
    JS.geb (heuristicFormula config s p)
           (JS.Fin (Config.minYieldThreshold (Config.analysis config))) = true.

(** What the rent-estimate lookup of a candidate returns. *)
Definition rentLookup (service : Rentcast.Service) (property : Listing)
    : option Rentcast.RentData :=
  let p := prop property in
  fst (Rentcast.getRentEstimate service (Rentcast.fullAddress property)
         (bedrooms p) (bathrooms p) (squareFootage p) 0%nat).

(** The enriched record of a candidate whose lookup returned a record with
    a numeric rent. *)
Definition enrichedIfNumeric (service : Rentcast.Service) (property : Listing)
    : option Listing :=
  match rentLookup service property with
  | Some data =>
      match Rentcast.rent data with
      | Some _ =>
          Some (with_rent property (Rentcast.rent data)
                  (Rentcast.rd_rentRangeLow data)
                  (Rentcast.rd_rentRangeHigh data))
      | None => None
      end
  | None => None
  end.

(** The same, for a numeric rent that is not zero. *)
Definition enrichedIfNonzero (service : Rentcast.Service) (property : Listing)
    : option Listing :=
  match rentLookup service property with
  | Some data =>
      match Rentcast.rent data with
      | Some r =>
          if Qeq_bool r 0 then None
          else Some (with_rent property (Rentcast.rent data)
                       (Rentcast.rd_rentRangeLow data)
                       (Rentcast.rd_rentRangeHigh data))
      | None => None
      end
  | None => None
  end.

(** The rent estimate of the listing is a nonzero number. *)
Definition rentNonzero (l : Listing) : Prop :=
  exists r : Q, rentEstimate l = Some r /\ ~ r == 0.

(** A division that refuses a zero divisor. *)
Definition guardedDiv (a b : JS.num) : option JS.num :=
  if JS.eqb b JS.zero then None else Some (JS.div a b).

(** Stage 3 with the division of the GRM guarded: [None] is the
    division-by-zero branch. *)
Definition metricsOfGuarded (config : Config.t) (listing : Listing)
    : option Listing :=
  let monthlyRent := JS.json_number (rentEstimate listing) in
  let annualRent := JS.mul monthlyRent (JS.Fin 12) in
  let price := JS.of_json (price (prop listing)) in
  let grossYield := Analyze.calculateGrossYield annualRent price in
  let monthlyCashFlow :=
    Analyze.calculateMonthlyCashFlow config monthlyRent price in
  grm ← guardedDiv (JS.to_number price) annualRent;
  let onePercentRule :=
    JS.geb monthlyRent (JS.mul (JS.to_number price) (JS.Fin (1 # 100))) in
  Some (with_metrics listing
          (JS.div (JS.round (JS.mul grossYield (JS.Fin 10))) (JS.Fin 10))
          (JS.round monthlyCashFlow)
          annualRent
          (JS.div (JS.round (JS.mul grm (JS.Fin 10))) (JS.Fin 10))
          onePercentRule).

Definition calculateInvestmentMetricsGuarded (config : Config.t)
    (listings : list Listing) : option (list Listing) :=
  mapM (metricsOfGuarded config) listings.

(** The listings the service returns for a city: none when the request
    throws or the response has no data. *)
Definition cityListings (config : Config.t) (service : Rentcast.Service)
    (location : Config.Location) : list Property :=
  fst (Rentcast.getListings config service
         (Config.loc_city location) (Config.loc_state location) 0%nat).

(** The service is down: every request throws. *)
Definition serviceDown (service : Rentcast.Service) : Prop :=
  (forall q, Rentcast.listings_sale service q = Rentcast.Throws)
  /\ (forall q, Rentcast.avm_rent service q = Rentcast.Throws).

(** The world a run ends in, aborted or not. *)
Definition final (r : Index.World + Index.World) : Index.World :=
  match r with
  | inl w => w
  | inr w => w
  end.

(** The most API calls a run over the markets [ms] can count: one per city
    and one per candidate. *)
Definition apiBudget (config : Config.t) (ms : list Config.Market) : nat :=
  sum_list
    (map (fun m =>
            length (Config.cities m)
            + Config.maxPropertiesToAnalyze (Config.analysis config))%nat
         ms).

(** The path of the file of a market, when the market has a file name. *)
Definition marketPath (config : Config.t) (m : Config.Market)
    : option string :=
  Index.path_join (Config.directory (Config.output config))
    <$> Config.files (Config.output config) !! Config.market_id m.

(** A deal of the market [market] that has a price, a square footage and a
    rent estimate, none of them zero, whose heuristic yield reaches the
    threshold, and whose gross yield, GRM and annual rent are numbers. *)
Definition soundDeal (config : Config.t) (market : Config.Market) (d : Deal)
    : Prop :=
  d_marketId d = Some (Config.market_id market)
  /\ d_marketName d = Some (Config.market_name market)
  /\ (exists p s r : Q,
        d_price d = Some p /\ ~ p == 0
        /\ d_squareFootage d = Some s /\ ~ s == 0
        /\ estMonthlyRent d = Some r /\ ~ r == 0
        /\ JS.geb (heuristicFormula config s p)
                  (JS.Fin (Config.minYieldThreshold (Config.analysis config)))
           = true)
  /\ JS.is_nan (JS.to_number (d_grossYield d)) = false
  /\ JS.is_nan (JS.to_number (d_grm d)) = false
  /\ JS.is_nan (JS.to_number (estAnnualRent d)) = false.

(** A listing of the market [market] that passes the heuristic filter. *)
Definition soundCandidate (config : Config.t) (market : Config.Market)
    (l : Listing) : Prop :=
  marketId l = Some (Config.market_id market)
  /\ marketName l = Some (Config.market_name market)
  /\ reachesThresholdNonzero config l.

(** A listing with a nonzero rent estimate whose gross yield, GRM and
    annual rent are numbers. *)
Definition soundMetrics (l : Listing) : Prop :=
  rentNonzero l
  /\ JS.is_nan (JS.to_number (grossYield l)) = false
  /\ JS.is_nan (JS.to_number (grm l)) = false
  /\ JS.is_nan (JS.to_number (annualRent l)) = false.

(** The integer nearest to a rational, ties upwards. *)
Definition Qnearest (q : Q) : Q := inject_Z (Qfloor (q + (1 # 2))).


(* ===================================================================== *)
(** * Properties                                                           *)
(* ===================================================================== *)

(** ** Numbers *)

Section NumFacts.
Import JS.

Lemma Qlt_bool_iff (a b : Q) : Qlt_bool a b = true <-> a < b.
Proof.
  unfold Qlt_bool. rewrite negb_true_iff. split.
  - intros H. apply Qnot_le_lt. intros Hle.
    apply Qle_bool_iff in Hle. congruence.
  - intros H. destruct (Qle_bool b a) eqn:E; [|reflexivity].
    apply Qle_bool_iff in E. exfalso. exact (Qlt_not_le _ _ H E).
Qed.

Lemma Qlt_bool_false (a b : Q) : Qlt_bool a b = false <-> b <= a.
Proof.
  unfold Qlt_bool. rewrite negb_false_iff. apply Qle_bool_iff.
Qed.

Lemma Qlt_bool_sub (x y : Q) : Qlt_bool (Qred (x - y)) 0 = Qlt_bool x y.
Proof.
  apply eq_true_iff_eq. rewrite !Qlt_bool_iff, Qred_correct.
  split; intros H.
  - apply (Qplus_lt_l _ _ (- y)). now rewrite Qplus_opp_r.
  - apply (Qplus_lt_l _ _ (- y)) in H. now rewrite Qplus_opp_r in H.
Qed.

(** The sign of the difference decides the order of two numbers. *)
Lemma sub_negative (a b : num) :
  is_nan a = false -> is_nan b = false ->
  ltb (if is_nan (sub a b) then zero else sub a b) zero = ltb a b.
Proof.
  destruct a as [x| | |], b as [y| | |]; simpl; try discriminate;
    intros _ _; try reflexivity.
  apply Qlt_bool_sub.
Qed.

Lemma ltb_false_geb (a b : num) :
  is_nan a = false -> is_nan b = false -> ltb a b = false -> geb a b = true.
Proof.
  destruct a as [x| | |], b as [y| | |]; simpl; try discriminate;
    intros _ _ H; try reflexivity.
  apply Qle_bool_iff. now apply Qlt_bool_false.
Qed.

Lemma ltb_true_leb (a b : num) : ltb a b = true -> leb a b = true.
Proof.
  destruct a as [x| | |], b as [y| | |]; simpl; try discriminate;
    intros H; try reflexivity.
  apply Qle_bool_iff, Qlt_le_weak. now apply Qlt_bool_iff.
Qed.

(** Two numbers that are equal are not ordered by their difference. *)
Lemma sub_of_equal (a b : num) :
  eqb a b = true ->
  ltb (if is_nan (sub a b) then zero else sub a b) zero = false.
Proof.
  destruct a as [x| | |], b as [y| | |]; simpl; try discriminate;
    intros H; try reflexivity.
  rewrite Qlt_bool_sub. apply Qlt_bool_false.
  apply Qeq_bool_iff in H. rewrite H. apply Qle_refl.
Qed.

Lemma eqb_trans (a b c : num) :
  eqb a b = true -> eqb b c = true -> eqb a c = true.
Proof.
  destruct a, b, c; simpl; try discriminate; try reflexivity.
  apply Qeq_bool_trans.
Qed.

Lemma eqb_sym (a b : num) : eqb a b = eqb b a.
Proof.
  destruct a, b; simpl; try reflexivity. apply Qeq_bool_comm.
Qed.

End NumFacts.

(** ** The sort *)

Section SortFacts.
Context {A : Type}.
Variable key : A -> JS.num.

Lemma descending_cons a l :
  descending key (a :: l) <->
  match l with b :: _ => JS.geb (key a) (key b) = true | [] => True end
  /\ descending key l.
Proof. destruct l; simpl; tauto. Qed.

Lemma sort_insert_Forall (P : A -> Prop) cmp x l :
  P x -> Forall P l -> Forall P (sort_insert cmp x l).
Proof.
  intros Hx Hl. induction Hl as [|y l Hy Hl IH]; simpl.
  - repeat constructor; assumption.
  - destruct (JS.ltb _ _); repeat constructor; assumption.
Qed.

Lemma sort_Forall (P : A -> Prop) cmp l :
  Forall P l -> Forall P (sort cmp l).
Proof.
  induction 1; simpl; [constructor|]. now apply sort_insert_Forall.
Qed.

Lemma sort_insert_length cmp x (l : list A) :
  length (sort_insert cmp x l) = S (length l).
Proof.
  induction l as [|y l IH]; simpl; [reflexivity|].
  destruct (JS.ltb _ _); simpl; congruence.
Qed.

Lemma sort_length cmp (l : list A) : length (sort cmp l) = length l.
Proof.
  induction l as [|x l IH]; simpl; [reflexivity|].
  now rewrite sort_insert_length, IH.
Qed.

Lemma before_by_key x y :
  (numeric key) x -> (numeric key) y ->
  JS.ltb (sort_compare (by_key key) y x) JS.zero = JS.ltb (key x) (key y).
Proof. intros Hx Hy. apply sub_negative; assumption. Qed.

Lemma sort_insert_descending x l :
  (numeric key) x -> Forall (numeric key) l -> descending key l ->
  descending key (sort_insert (by_key key) x l).
Proof.
  intros Hx Hl. induction Hl as [|y l Hy Hl IH]; intros Hd.
  - exact I.
  - cbn [sort_insert]. rewrite before_by_key by assumption.
    destruct (JS.ltb (key x) (key y)) eqn:E.
    + apply descending_cons in Hd as [Hhd Htl].
      apply descending_cons. split; [|now apply IH].
      destruct l as [|z l]; cbn [sort_insert].
      * now apply ltb_true_leb.
      * inversion Hl; subst. rewrite before_by_key by assumption.
        destruct (JS.ltb (key x) (key z)); [assumption|].
        now apply ltb_true_leb.
    + apply descending_cons. split; [|assumption].
      now apply ltb_false_geb.
Qed.

Lemma sort_descending l :
  Forall (numeric key) l -> descending key (sort (by_key key) l).
Proof.
  induction 1 as [|x l Hx Hl IH]; simpl; [exact I|].
  apply sort_insert_descending; [assumption| |assumption].
  now apply sort_Forall.
Qed.

Lemma descending_take n l : descending key l -> descending key (take n l).
Proof.
  revert l. induction n as [|n IH]; intros [|a l] Hd; try exact I.
  cbn [take]. apply descending_cons in Hd as [Hhd Htl].
  apply descending_cons. split; [|now apply IH].
  destruct n, l; simpl; trivial.
Qed.

Lemma descending_lookup l i a b :
  descending key l -> l !! i = Some a -> l !! S i = Some b ->
  JS.geb (key a) (key b) = true.
Proof.
  revert i. induction l as [|x l IH]; intros i Hd Ha Hb; [discriminate|].
  apply descending_cons in Hd as [Hhd Htl].
  destruct i as [|i].
  - destruct l; simpl in *; [discriminate|]. congruence.
  - exact (IH i Htl Ha Hb).
Qed.

(** Stability: among the elements whose key equals [g], the sort changes
    nothing. *)
Lemma sort_insert_tied g x l :
  List.filter (tied key g) (sort_insert (by_key key) x l)
  = List.filter (tied key g) (x :: l).
Proof.
  induction l as [|y l IH]; [reflexivity|].
  cbn [sort_insert]. destruct (JS.ltb _ _) eqn:E; [|reflexivity].
  cbn [List.filter] in *. rewrite IH.
  destruct (tied key g x) eqn:Hx; [|reflexivity].
  destruct (tied key g y) eqn:Hy; [|reflexivity].
  exfalso. unfold tied in Hx, Hy. unfold sort_compare, by_key in E.
  rewrite sub_of_equal in E; [discriminate|].
  rewrite eqb_sym in Hy. exact (eqb_trans _ _ _ Hx Hy).
Qed.

Lemma sort_tied g l :
  List.filter (tied key g) (sort (by_key key) l) = List.filter (tied key g) l.
Proof.
  induction l as [|x l IH]; [reflexivity|].
  cbn [sort]. rewrite sort_insert_tied. cbn [List.filter]. now rewrite IH.
Qed.

Lemma filter_take_prefix (p : A -> bool) n l :
  List.filter p (take n l) `prefix_of` List.filter p l.
Proof.
  revert l. induction n as [|n IH]; intros [|a l]; cbn [take List.filter];
    try apply prefix_nil.
  destruct (p a); [apply prefix_cons|]; apply IH.
Qed.
End SortFacts.

(** ** Ranking and rank numbers *)

Section RankingFacts.
Import Config Analyze.
Variable config : Config.t.

Lemma rankAndSelectTopDeals_eq listings :
  rankAndSelectTopDeals config listings
  = take (topDealsCount (analysis config))
         (sort (by_key grossYieldKey) listings).
Proof. reflexivity. Qed.

Lemma selectTopCandidates_eq listings :
  selectTopCandidates config listings
  = take (maxPropertiesToAnalyze (analysis config))
      (sort (by_key heuristicYieldKey)
         (map (fun l => with_heuristicYield l (heuristicYieldOf config l))
              listings)).
Proof. reflexivity. Qed.

Lemma take_at_most {A} n (l : list A) : (length (take n l) <= n)%nat.
Proof. rewrite length_take. lia. Qed.

Lemma ranks_from (k : nat) (ds : list Listing) :
  map rank (imap (fun index deal => formatDealForOutput deal (index + k)) ds)
  = seq k (length ds).
Proof.
  revert k. induction ds as [|d ds IH]; intros k; [reflexivity|].
  cbn [imap map length seq]. f_equal.
  rewrite <- (IH (S k)). f_equal. apply imap_ext.
  intros i x _. cbn. f_equal. lia.
Qed.

(** A listing with a square footage gets a heuristic yield that is a
    number. *)
Lemma heuristicYieldOf_numeric (l : Listing) (s : Q) :
  squareFootage (prop l) = Some s ->
  JS.is_nan (heuristicYieldOf config l) = false.
Proof.
  intros Hs. unfold heuristicYieldOf, calculateGrossYield. rewrite Hs.
  destruct (price (prop l)) as [p|]; cbn; [|reflexivity].
  destruct (Qeq_bool p 0) eqn:E; reflexivity.
Qed.

(** Stage 3 attaches a gross yield that is a number to every listing that
    has a rent estimate. *)
Lemma metricsOf_bearing (l : Listing) (r : Q) :
  rentEstimate l = Some r -> metrics_bearing (metricsOf config l).
Proof.
  intros Hr. unfold metrics_bearing, numeric, grossYieldKey, metricsOf.
  unfold calculateGrossYield. rewrite Hr.
  destruct (price (prop l)) as [p|]; cbn; [|reflexivity].
  destruct (Qeq_bool p 0) eqn:E; reflexivity.
Qed.

(** What the pipeline feeds to stage 2 has a square footage, and what it
    feeds to stage 4 is metrics-bearing. *)
Lemma applyHeuristicFilter_squareFootage (listings : list Listing) :
  Forall (fun l => is_Some (squareFootage (prop l)))
         (applyHeuristicFilter config listings).
Proof.
  apply List.Forall_forall. intros l Hin. apply filter_In in Hin as [_ Hpass].
  unfold passesHeuristic in Hpass.
  destruct (squareFootage (prop l)) as [s|]; [eexists; reflexivity|].
  cbn in Hpass. rewrite orb_true_r in Hpass. discriminate.
Qed.

Lemma calculateInvestmentMetrics_bearing (listings : list Listing) :
  Forall (fun l => is_Some (rentEstimate l)) listings ->
  Forall metrics_bearing (calculateInvestmentMetrics config listings).
Proof.
  intros H. apply Forall_fmap. eapply Forall_impl; [exact H|].
  intros l [r Hr]. exact (metricsOf_bearing l r Hr).
Qed.
End RankingFacts.

(** C1. For every list of metrics-bearing listings, the ranking returns at
    most [topDealsCount] listings, each adjacent pair of them in descending
    order of the gross yield; and for every list of deals, the ranks of the
    deals of the market output are [1, 2, ..., N] in sequence order, [N]
    being the number of deals. *)
Theorem rankAndSelectTopDeals_bounded_sorted_ranked
    (config : Config.t) (listings : list Listing)
    (Hmetrics : Forall metrics_bearing listings) :
  let result := Analyze.rankAndSelectTopDeals config listings in
  (length result <= Config.topDealsCount (Config.analysis config))%nat
  /\ (forall (i : nat) (a b : Listing),
        result !! i = Some a -> result !! S i = Some b ->
        JS.geb (grossYieldKey a) (grossYieldKey b) = true)
  /\ (forall (ds : list Listing) (market : Config.Market) (now : string),
        map rank (deals (Analyze.createMarketOutput ds market now))
        = seq 1 (length ds)).
Proof.
  cbv zeta. rewrite rankAndSelectTopDeals_eq. split; [|split].
  - apply take_at_most.
  - intros i a b Ha Hb.
    refine (descending_lookup grossYieldKey _ i a b _ Ha Hb).
    apply descending_take, sort_descending. exact Hmetrics.
  - intros ds market now. cbn [Analyze.createMarketOutput deals].
    apply (ranks_from 1).
Qed.

Lemma rankAndSelectTopDeals_bounded_sorted_ranked_witness :
  let result := Analyze.rankAndSelectTopDeals Config.config Scenario.withMetrics in
  (length result <= 10)%nat
  /\ (exists a b : Listing,
        result !! 0%nat = Some a /\ result !! 1%nat = Some b /\
        grossYield a = Some (JS.Fin (54 # 5)) /\
        grossYield b = Some (JS.Fin (54 # 5)) /\
        JS.geb (grossYieldKey a) (grossYieldKey b) = true)
  /\ map rank (deals (Analyze.createMarketOutput Scenario.withMetrics
                        Config.temple_belton (Scenario.now Config.temple_belton)))
     = [1; 2; 3]%nat.
Proof.
  assert (Hm : Forall metrics_bearing Scenario.withMetrics).
  { repeat constructor. }
  destruct (rankAndSelectTopDeals_bounded_sorted_ranked
              Config.config Scenario.withMetrics Hm) as (Hlen & Hsorted & Hrank).
  split; [exact Hlen|]. split; [|apply Hrank].
  eexists _, _. split; [reflexivity|]. split; [reflexivity|].
  split; [reflexivity|]. split; [reflexivity|].
  apply (Hsorted 0%nat); reflexivity.
Defined.

(** ** Candidate selection *)

(** C3, as stated, fails: a listing without a square footage gets the
    heuristic yield [NaN], and no comparison with [NaN] holds. On the list
    of the listing D (a price, no square footage) and the listing A, the
    first two candidates are not in descending order. *)
Lemma selectTopCandidates_unsorted_without_squareFootage :
  let result :=
    Analyze.selectTopCandidates Config.config
      [Scenario.listing Scenario.D; Scenario.listing Scenario.A] in
  ~ ((length result
      <= Config.maxPropertiesToAnalyze (Config.analysis Config.config))%nat
     /\ forall (i : nat) (a b : Listing),
          result !! i = Some a -> result !! S i = Some b ->
          JS.geb (heuristicYieldKey a) (heuristicYieldKey b) = true).
Proof.
  intros result [_ Hsorted].
  specialize (Hsorted 0%nat _ _ eq_refl eq_refl).
  vm_compute in Hsorted. discriminate.
Qed.

(** C3, amended. For every input list, candidate selection returns at most
    [maxPropertiesToAnalyze] candidates; and when every listing of the
    input has a square footage, each adjacent pair of candidates is in
    descending order of the attached heuristic yield. *)
Theorem selectTopCandidates_bounded_sorted
    (config : Config.t) (listings : list Listing) :
  let result := Analyze.selectTopCandidates config listings in
  (length result
   <= Config.maxPropertiesToAnalyze (Config.analysis config))%nat
  /\ (Forall (fun l => is_Some (squareFootage (prop l))) listings ->
      forall (i : nat) (a b : Listing),
        result !! i = Some a -> result !! S i = Some b ->
        JS.geb (heuristicYieldKey a) (heuristicYieldKey b) = true).
Proof.
  cbv zeta. rewrite selectTopCandidates_eq. split.
  - apply take_at_most.
  - intros Hsqft i a b Ha Hb.
    refine (descending_lookup heuristicYieldKey _ i a b _ Ha Hb).
    apply descending_take, sort_descending.
    apply Forall_fmap. eapply Forall_impl; [exact Hsqft|].
    intros l [s Hs]. exact (heuristicYieldOf_numeric config l s Hs).
Qed.

Lemma selectTopCandidates_bounded_sorted_witness :
  let result :=
    Analyze.selectTopCandidates Config.config
      [Scenario.listing Scenario.B; Scenario.listing Scenario.A] in
  (length result <= 50)%nat
  /\ exists a b : Listing,
       result !! 0%nat = Some a /\ result !! 1%nat = Some b /\
       heuristicYield a = Some (JS.Fin (48 # 5)) /\
       heuristicYield b = Some (JS.Fin (24 # 5)) /\
       JS.geb (heuristicYieldKey a) (heuristicYieldKey b) = true.
Proof.
  destruct (selectTopCandidates_bounded_sorted Config.config
              [Scenario.listing Scenario.B; Scenario.listing Scenario.A])
    as [Hlen Hsorted].
  split; [exact Hlen|].
  eexists _, _. split; [reflexivity|]. split; [reflexivity|].
  split; [reflexivity|]. split; [reflexivity|].
  apply (Hsorted ltac:(repeat constructor; eexists; reflexivity) 0%nat);
    reflexivity.
Defined.

(** ** Ties in the ranking *)

(** C9. On metrics-bearing listings, the listings the ranking takes, the
    ranking keeps the input order among listings of equal gross yield: for
    every yield [g], the listings of the output whose gross yield is [g]
    are, in this order, the first listings of the input whose gross yield
    is [g]. The sort has no second key. (With a gross yield that is not a
    number the comparator is not consistent, and the order the sort
    returns is left to the engine.) *)
Theorem rankAndSelectTopDeals_stable
    (config : Config.t) (listings : list Listing) (g : JS.num)
    (Hmetrics : Forall metrics_bearing listings) :
  List.filter (tied grossYieldKey g)
    (Analyze.rankAndSelectTopDeals config listings)
  `prefix_of` List.filter (tied grossYieldKey g) listings.
Proof.
  rewrite rankAndSelectTopDeals_eq.
  rewrite <- (sort_tied grossYieldKey g listings).
  apply filter_take_prefix.
Qed.

Lemma rankAndSelectTopDeals_stable_witness :
  map (fun l => formattedAddress (prop l))
    (List.filter (tied grossYieldKey (JS.Fin (54 # 5)))
       (Analyze.rankAndSelectTopDeals Scenario.topTwo Scenario.withMetrics))
  `prefix_of` [Some "A"; Some "C"]%string.
Proof.
  destruct (rankAndSelectTopDeals_stable Scenario.topTwo Scenario.withMetrics
              (JS.Fin (54 # 5)) ltac:(repeat constructor)) as [k Hk].
  exists (map (fun l => formattedAddress (prop l)) k).
  rewrite <- map_app, <- Hk. reflexivity.
Defined.

(** The ranking of B (6.0), A (10.8) and C (10.8): A and C tie and stay in
    their input order. *)
Example rankAndSelectTopDeals_tie :
  map (fun l => formattedAddress (prop l))
      (Analyze.rankAndSelectTopDeals Config.config Scenario.withMetrics)
  = [Some "A"; Some "C"; Some "B"]%string.
Proof. vm_compute. reflexivity. Qed.

(** ** Gross yield *)

Lemma positive_is_truthy (price : JS.num) :
  JS.gtb price JS.zero = true ->
  JS.truthy price = true /\ JS.eqb price JS.zero = false.
Proof.
  destruct price as [p| | |]; cbn; try discriminate; try (split; reflexivity).
  intros H. apply Qlt_bool_iff in H.
  assert (E : Qeq_bool p 0 = false).
  { destruct (Qeq_bool p 0) eqn:E; [|reflexivity].
    apply Qeq_bool_iff in E. rewrite E in H.
    exfalso. exact (Qlt_irrefl _ H). }
  rewrite E. split; reflexivity.
Qed.

(** C4. For a price above zero and an annual rent of at least zero, the
    gross yield is [(annualRent / price) * 100]; and for every annual rent,
    the gross yield at the price zero, or without a price, is zero. *)
Theorem calculateGrossYield_spec
    (annualRent price anyRent : JS.num)
    (Hprice : JS.gtb price JS.zero = true)
    (Hrent : JS.geb annualRent JS.zero = true) :
  Analyze.calculateGrossYield annualRent (Some price)
  = JS.mul (JS.div annualRent price) (JS.Fin 100)
  /\ Analyze.calculateGrossYield anyRent (Some JS.zero) = JS.zero
  /\ Analyze.calculateGrossYield anyRent None = JS.zero.
Proof.
  destruct (positive_is_truthy price Hprice) as [Ht Hz].
  split; [|split; reflexivity].
  unfold Analyze.calculateGrossYield. cbn. now rewrite Ht, Hz.
Qed.

Lemma calculateGrossYield_spec_witness :
  Analyze.calculateGrossYield (JS.Fin 21600) (Some (JS.Fin 200000))
  = JS.mul (JS.div (JS.Fin 21600) (JS.Fin 200000)) (JS.Fin 100)
  /\ Analyze.calculateGrossYield JS.PInf (Some JS.zero) = JS.zero.
Proof.
  destruct (calculateGrossYield_spec (JS.Fin 21600) (JS.Fin 200000) JS.PInf
              eq_refl eq_refl) as (H1 & H3 & _).
  split; [exact H1|exact H3].
Defined.

(** ** The heuristic filter *)

(** C2, as stated, fails: the listing Z has a price (the number zero) and
    a square footage of 1000, the formula gives [Infinity], which reaches
    the threshold, and the filter drops the listing, because a price of
    zero is falsy. *)
Lemma applyHeuristicFilter_drops_zero_price :
  let l := Scenario.listing Scenario.Z in
  ~ (In l (Analyze.applyHeuristicFilter Config.config [l])
     <-> reachesThreshold Config.config l).
Proof.
  intros l [_ H].
  assert (Hr : reachesThreshold Config.config l).
  { exists 0, 1000. repeat split; reflexivity. }
  exact (H Hr).
Qed.

Lemma heuristicYieldOf_formula (config : Config.t) (l : Listing) (p s : Q) :
  price (prop l) = Some p -> squareFootage (prop l) = Some s ->
  Qeq_bool p 0 = false ->
  Analyze.heuristicYieldOf config l = heuristicFormula config s p.
Proof.
  intros Hp Hs E.
  unfold Analyze.heuristicYieldOf, Analyze.calculateGrossYield,
    heuristicFormula.
  rewrite Hp, Hs. cbn. rewrite E. reflexivity.
Qed.

Lemma passesHeuristic_iff (config : Config.t) (l : Listing) :
  Analyze.passesHeuristic config l = true
  <-> reachesThresholdNonzero config l.
Proof.
  unfold Analyze.passesHeuristic, reachesThresholdNonzero. split.
  - destruct (price (prop l)) as [p|] eqn:Hp; [|discriminate].
    destruct (squareFootage (prop l)) as [s|] eqn:Hs;
      [|cbn; rewrite orb_true_r; discriminate].
    cbn. destruct (Qeq_bool p 0) eqn:Ep; [discriminate|].
    destruct (Qeq_bool s 0) eqn:Es; [discriminate|]. cbn.
    rewrite (heuristicYieldOf_formula config l p s Hp Hs Ep).
    intros H. exists p, s. repeat split; try assumption.
    + now apply Qeq_bool_neq.
    + now apply Qeq_bool_neq.
  - intros (p & s & Hp & Hp0 & Hs & Hs0 & H).
    assert (Ep : Qeq_bool p 0 = false).
    { destruct (Qeq_bool p 0) eqn:E; [|reflexivity].
      now apply Qeq_bool_iff in E. }
    assert (Es : Qeq_bool s 0 = false).
    { destruct (Qeq_bool s 0) eqn:E; [|reflexivity].
      now apply Qeq_bool_iff in E. }
    rewrite (heuristicYieldOf_formula config l p s Hp Hs Ep).
    rewrite Hp, Hs. cbn. rewrite Ep, Es. exact H.
Qed.

(** C2, amended. The heuristic filter keeps a listing iff its price and its
    square footage are both present and not zero and
    [(squareFootage * heuristicRentPerSqft * 12) / price * 100] is at least
    [minYieldThreshold]; every listing without a price or without a square
    footage is excluded from the output. *)
Theorem applyHeuristicFilter_spec
    (config : Config.t) (listings : list Listing) (l : Listing) :
  (In l (Analyze.applyHeuristicFilter config listings)
   <-> In l listings /\ reachesThresholdNonzero config l)
  /\ (price (prop l) = None \/ squareFootage (prop l) = None ->
      ~ In l (Analyze.applyHeuristicFilter config listings)).
Proof.
  unfold Analyze.applyHeuristicFilter. split.
  - rewrite filter_In, passesHeuristic_iff. reflexivity.
  - intros Hmissing Hin. apply filter_In in Hin as [_ Hpass].
    apply passesHeuristic_iff in Hpass
      as (p & s & Hp & _ & Hs & _). destruct Hmissing; congruence.
Qed.

Lemma applyHeuristicFilter_spec_witness :
  In (Scenario.listing Scenario.A)
     (Analyze.applyHeuristicFilter Config.config
        [Scenario.listing Scenario.D; Scenario.listing Scenario.A])
  /\ ~ In (Scenario.listing Scenario.D)
        (Analyze.applyHeuristicFilter Config.config
           [Scenario.listing Scenario.D; Scenario.listing Scenario.A]).
Proof.
  split.
  - apply (applyHeuristicFilter_spec Config.config
             [Scenario.listing Scenario.D; Scenario.listing Scenario.A]
             (Scenario.listing Scenario.A)).
    split; [right; left; reflexivity|].
    exists 200000, 1600. repeat split; try reflexivity; discriminate.
  - apply (applyHeuristicFilter_spec Config.config
             [Scenario.listing Scenario.D; Scenario.listing Scenario.A]
             (Scenario.listing Scenario.D)).
    right. reflexivity.
Defined.

(** ** The empty market output *)

(** C6. For every market, the market output of the empty list of deals has
    [totalDeals] zero, every numeric field of the summary zero, and no
    deal. The function is total: there is no error to return. *)
Theorem createMarketOutput_empty (market : Config.Market) (now : string) :
  let out := Analyze.createMarketOutput [] market now in
  totalDeals (summary out) = 0%nat
  /\ avgGrossYield (summary out) = JS.zero
  /\ avgPrice (summary out) = JS.zero
  /\ avgMonthlyRent (summary out) = JS.zero
  /\ topYield (summary out) = Some JS.zero
  /\ lowestPrice (summary out) = JS.zero
  /\ deals out = []
  /\ mo_market_id out = Config.market_id market
  /\ mo_market_name out = Config.market_name market.
Proof. repeat split; reflexivity. Qed.

(** ** The two-listing scenario, end to end *)

(** C5. With the exported configuration (heuristic rent 1.00 per square
    foot, threshold 6.0, ten top deals), the service listing A (200000,
    1600 sq ft, rent 1800) and B (300000, 1200 sq ft, rent 1500): the
    heuristic yield of B is 4.8, below 6.0, and the filter drops B; that of
    A is 9.6 and the filter keeps A; the metrics of A are a gross yield of
    10.8, a GRM of 9.3 and a failed 1% rule; the market output has exactly
    one deal, of rank 1 and gross yield 10.8. One rent estimate was looked
    up: three API calls in all, two for the listings of the two cities.
    (Numbers are in lowest terms: 4.8 is [24 # 5], 9.6 is [48 # 5], 10.8 is
    [54 # 5] and 9.3 is [93 # 10].) *)
Theorem scenario_end_to_end :
  let cfg := Config.config in
  let a := Scenario.listingA in
  let b := Scenario.listingB in
  Analyze.heuristicYieldOf cfg b = JS.Fin (24 # 5)
  /\ JS.ltb (Analyze.heuristicYieldOf cfg b) (JS.Fin 6) = true
  /\ Analyze.heuristicYieldOf cfg a = JS.Fin (48 # 5)
  /\ JS.geb (Analyze.heuristicYieldOf cfg a) (JS.Fin 6) = true
  /\ Analyze.applyHeuristicFilter cfg [a; b] = [a]
  /\ (exists m : Listing,
        Analyze.calculateInvestmentMetrics cfg
          (fst (Rentcast.enrichWithRentEstimates Scenario.service
                  (Analyze.selectTopCandidates cfg
                     (Analyze.applyHeuristicFilter cfg [a; b])) 0%nat))
        = [m]
        /\ prop m = Scenario.A
        /\ grossYield m = Some (JS.Fin (54 # 5))
        /\ grm m = Some (JS.Fin (93 # 10))
        /\ meetsOnePercentRule m = Some false)
  /\ (exists d : Deal,
        deals Scenario.result = [d]
        /\ rank d = 1%nat
        /\ d_grossYield d = Some (JS.Fin (54 # 5))
        /\ d_price d = Some 200000)
  /\ totalDeals (summary Scenario.result) = 1%nat
  /\ snd (Index.processMarket cfg Scenario.service Scenario.now
            Config.temple_belton 0%nat) = 3%nat.
Proof.
  cbv zeta.
  split; [vm_compute; reflexivity|].
  split; [vm_compute; reflexivity|].
  split; [vm_compute; reflexivity|].
  split; [vm_compute; reflexivity|].
  split; [vm_compute; reflexivity|].
  split.
  { eexists. split; [vm_compute; reflexivity|].
    repeat split; vm_compute; reflexivity. }
  split.
  { eexists. split; [vm_compute; reflexivity|].
    repeat split; vm_compute; reflexivity. }
  split; vm_compute; reflexivity.
Qed.

(** ** Enrichment *)

Section EnrichFacts.
Import Rentcast.
Variable service : Service.

(** The counter does not influence what a lookup returns, and a lookup
    counts for one call at most. *)
Lemma getRentEstimate_result address b ba s (n : nat) :
  fst (getRentEstimate service address b ba s n)
  = fst (getRentEstimate service address b ba s 0%nat)
  /\ (snd (getRentEstimate service address b ba s n) <= S n)%nat.
Proof.
  unfold getRentEstimate. destruct (avm_rent service _); cbn; split;
    try reflexivity; lia.
Qed.

Lemma enrichLoop_spec (properties enriched : list Listing) (n : nat) :
  fst (enrichLoop service properties enriched n)
  = enriched ++ omap (enrichedIfNonzero service) properties
  /\ (snd (enrichLoop service properties enriched n)
      <= n + length properties)%nat.
Proof.
  revert enriched n.
  induction properties as [|property rest IH]; intros enriched n.
  - cbn. rewrite app_nil_r. split; [reflexivity|lia].
  - cbn [enrichLoop]. unfold bind.
    pose proof (getRentEstimate_result (fullAddress property)
                  (bedrooms (prop property)) (bathrooms (prop property))
                  (squareFootage (prop property)) n) as [Hres Hcount].
    destruct (getRentEstimate service _ _ _ _ n) as [rentData n'] eqn:E.
    cbn [fst snd] in Hres, Hcount.
    destruct (IH (match rentData with
                  | Some data =>
                      if JS.truthy_json (rent data)
                      then enriched ++
                           [with_rent property (rent data)
                              (rd_rentRangeLow data) (rd_rentRangeHigh data)]
                      else enriched
                  | None => enriched
                  end) n') as [IHres IHcount].
    split; [|cbn [length]; lia].
    rewrite IHres. cbn [omap list_omap]. unfold enrichedIfNonzero at 2.
    unfold rentLookup. rewrite <- Hres.
    destruct rentData as [data|]; [|reflexivity].
    destruct (rent data) as [r|]; cbn; [|reflexivity].
    destruct (Qeq_bool r 0); cbn; [reflexivity|].
    now rewrite <- app_assoc.
Qed.
End EnrichFacts.

(** C8, as stated, fails: a record whose rent is the number zero has a
    numeric rent, and the enrichment drops its candidate, because a rent of
    zero is falsy. *)
Lemma enrichWithRentEstimates_drops_zero_rent :
  let service := Scenario.zeroRentService in
  let candidate := Scenario.listing Scenario.A in
  let out :=
    fst (Rentcast.enrichWithRentEstimates service [candidate] 0%nat) in
  (exists (data : Rentcast.RentData) (r : Q),
     rentLookup service candidate = Some data /\ Rentcast.rent data = Some r)
  /\ ~ (forall l : Listing,
          In l out <-> enrichedIfNumeric service candidate = Some l).
Proof.
  cbv zeta. split.
  - eexists _, _. split; reflexivity.
  - intros H.
    destruct (H (with_rent (Scenario.listing Scenario.A) (Some 0) None None))
      as [_ Hin].
    exact (Hin eq_refl).
Qed.

(** C8, amended. The enrichment keeps a candidate iff its rent-estimate
    lookup returned a record whose rent is a number other than zero; a
    failed lookup, an absent record and a record without such a rent drop
    the candidate. The candidates are looked up once each, in order, and
    every record of the output is its candidate with the returned rent,
    [rentRangeLow] and [rentRangeHigh] attached. *)
Theorem enrichWithRentEstimates_spec
    (service : Rentcast.Service) (candidates : list Listing) (n : nat) :
  let run := Rentcast.enrichWithRentEstimates service candidates n in
  fst run = omap (enrichedIfNonzero service) candidates
  /\ (snd run <= n + length candidates)%nat
  /\ (forall (candidate l : Listing),
        enrichedIfNonzero service candidate = Some l <->
        exists (data : Rentcast.RentData) (r : Q),
          rentLookup service candidate = Some data
          /\ Rentcast.rent data = Some r /\ ~ r == 0
          /\ l = with_rent candidate (Some r)
                   (Rentcast.rd_rentRangeLow data)
                   (Rentcast.rd_rentRangeHigh data)).
Proof.
  cbv zeta. unfold Rentcast.enrichWithRentEstimates.
  destruct (enrichLoop_spec service candidates [] n) as [Hres Hcount].
  split; [exact Hres|]. split; [exact Hcount|].
  intros candidate l. unfold enrichedIfNonzero. split.
  - destruct (rentLookup service candidate) as [data|]; [|discriminate].
    destruct (Rentcast.rent data) as [r|] eqn:Hr; [|discriminate].
    destruct (Qeq_bool r 0) eqn:E; [discriminate|].
    intros [= <-]. exists data, r. repeat split; try assumption.
    now apply Qeq_bool_neq.
  - intros (data & r & -> & Hr & Hnz & ->). rewrite Hr.
    destruct (Qeq_bool r 0) eqn:E; [|reflexivity].
    now apply Qeq_bool_iff in E.
Qed.

Lemma enrichWithRentEstimates_spec_witness :
  fst (Rentcast.enrichWithRentEstimates Scenario.service
         [Scenario.listing Scenario.A; Scenario.listing Scenario.D] 0%nat)
  = [Scenario.enriched Scenario.A 1800]
  /\ enrichedIfNonzero Scenario.service (Scenario.listing Scenario.A)
     = Some (Scenario.enriched Scenario.A 1800).
Proof.
  destruct (enrichWithRentEstimates_spec Scenario.service
              [Scenario.listing Scenario.A; Scenario.listing Scenario.D] 0%nat)
    as (Hout & _ & Hrecord).
  split.
  - rewrite Hout. reflexivity.
  - apply Hrecord. exists (Scenario.rentOf 1800), 1800.
    repeat split; try reflexivity. discriminate.
Defined.

(** ** The divisor of the GRM *)

Lemma annualRent_nonzero (r : Q) :
  ~ r == 0 -> JS.eqb (JS.mul (JS.Fin r) (JS.Fin 12)) JS.zero = false.
Proof.
  intros Hr. cbn. destruct (Qeq_bool (Qred (r * 12)) 0) eqn:E; [|reflexivity].
  apply Qeq_bool_iff in E. rewrite Qred_correct in E.
  apply Qmult_integral in E as [E|E]; [contradiction|discriminate].
Qed.

Lemma metricsOfGuarded_total (config : Config.t) (l : Listing) :
  rentNonzero l ->
  metricsOfGuarded config l = Some (Analyze.metricsOf config l).
Proof.
  intros (r & Hr & Hnz). unfold metricsOfGuarded, Analyze.metricsOf, guardedDiv.
  rewrite Hr. change (JS.json_number (Some r)) with (JS.Fin r).
  rewrite (annualRent_nonzero r Hnz). reflexivity.
Qed.

Lemma mapM_total {A B : Type} (f : A -> option B) (g : A -> B) (l : list A) :
  Forall (fun x => f x = Some (g x)) l -> mapM f l = Some (map g l).
Proof.
  induction 1 as [|x l Hx Hl IH]; [reflexivity|].
  cbn. rewrite Hx. cbn. rewrite IH. reflexivity.
Qed.

Lemma enriched_rentNonzero (service : Rentcast.Service) (candidate l : Listing) :
  enrichedIfNonzero service candidate = Some l -> rentNonzero l.
Proof.
  unfold enrichedIfNonzero.
  destruct (rentLookup service candidate) as [data|]; [|discriminate].
  destruct (Rentcast.rent data) as [r|] eqn:Hr; [|discriminate].
  destruct (Qeq_bool r 0) eqn:E; [discriminate|].
  intros [= <-]. exists r. split; [reflexivity|]. now apply Qeq_bool_neq.
Qed.

(** C10. When the rent estimate of every listing is a nonzero number, the
    divisor [rentEstimate * 12] of the GRM is not zero for any of them, and
    stage 3 with the guarded division never takes the division-by-zero
    branch: it returns the listings stage 3 returns. The precondition
    holds for every output of the enrichment. *)
Theorem calculateInvestmentMetrics_divisor_nonzero
    (config : Config.t) (listings : list Listing)
    (service : Rentcast.Service) (candidates : list Listing) (n : nat)
    (Hrent : Forall rentNonzero listings) :
  Forall (fun l =>
            JS.eqb (JS.mul (JS.json_number (rentEstimate l)) (JS.Fin 12))
                   JS.zero = false) listings
  /\ calculateInvestmentMetricsGuarded config listings
     = Some (Analyze.calculateInvestmentMetrics config listings)
  /\ Forall rentNonzero
       (fst (Rentcast.enrichWithRentEstimates service candidates n)).
Proof.
  split; [|split].
  - eapply Forall_impl; [exact Hrent|].
    intros l (r & Hr & Hnz). rewrite Hr. exact (annualRent_nonzero r Hnz).
  - apply mapM_total. eapply Forall_impl; [exact Hrent|].
    intros l. apply metricsOfGuarded_total.
  - destruct (enrichLoop_spec service candidates [] n) as [Hres _].
    unfold Rentcast.enrichWithRentEstimates. rewrite Hres. cbn [app].
    apply Forall_forall. intros l Hin.
    apply list_elem_of_omap in Hin as (candidate & _ & Hc).
    exact (enriched_rentNonzero service candidate l Hc).
Qed.

Lemma calculateInvestmentMetrics_divisor_nonzero_witness :
  calculateInvestmentMetricsGuarded Config.config
    [Scenario.enriched Scenario.A 1800; Scenario.enriched Scenario.B 1500]
  = Some (Analyze.calculateInvestmentMetrics Config.config
            [Scenario.enriched Scenario.A 1800;
             Scenario.enriched Scenario.B 1500]).
Proof.
  refine (proj1 (proj2
    (calculateInvestmentMetrics_divisor_nonzero Config.config
       [Scenario.enriched Scenario.A 1800; Scenario.enriched Scenario.B 1500]
       Scenario.service [] 0%nat _))).
  repeat constructor.
  - exists 1800. split; [reflexivity|discriminate].
  - exists 1500. split; [reflexivity|discriminate].
Defined.

(** ** The write safeguard of the orchestrator *)

Section PersistFacts.
Import Config Index.
Variable config : Config.t.

Lemma validateOutput_keeps (data existing : MarketOutput) (path : string)
    (d : gmap string MarketOutput) :
  deals data = [] -> d !! path = Some existing -> deals existing <> [] ->
  validateOutput data path d = existing.
Proof.
  intros Hnew Hold Hdeals. unfold validateOutput. rewrite Hnew, Hold.
  destruct (deals existing); [contradiction|reflexivity].
Qed.

Lemma validateOutput_fresh (data : MarketOutput) (path : string)
    (d : gmap string MarketOutput) :
  deals data <> [] -> validateOutput data path d = data.
Proof.
  intros Hnew. unfold validateOutput.
  destruct (deals data); [contradiction|reflexivity].
Qed.

Lemma validateOutput_first_run (data : MarketOutput) (path : string)
    (d : gmap string MarketOutput) :
  d !! path = None -> validateOutput data path d = data.
Proof.
  intros Hnone. unfold validateOutput. rewrite Hnone.
  destruct (deals data); reflexivity.
Qed.
End PersistFacts.

(** C7. When the output computed for a market has no deal and the file of
    that market exists with a nonempty array of deals, the validation
    returns the document of the file and the write puts it back: after the
    validate-and-write step the file of the market holds the document it
    held before, with the deals it had, and every other file is as it
    was. *)
Theorem persist_keeps_prior_deals
    (config : Config.t) (market : Config.Market) (computed : MarketOutput)
    (d : gmap string MarketOutput) (filename : string)
    (existing : MarketOutput)
    (Hfile : Config.files (Config.output config) !! Config.market_id market
             = Some filename)
    (Hempty : deals computed = [])
    (Hexisting :
       d !! Index.path_join (Config.directory (Config.output config)) filename
       = Some existing)
    (Hprior : deals existing <> []) :
  exists d' : gmap string MarketOutput,
    Index.persist config market computed d = Some d'
    /\ d' !! Index.path_join (Config.directory (Config.output config)) filename
       = Some existing
    /\ deals <$> d' !! Index.path_join (Config.directory (Config.output config))
                       filename
       = Some (deals existing)
    /\ d' = d.
Proof.
  unfold Index.persist. rewrite Hfile. eexists. split; [reflexivity|].
  rewrite (validateOutput_keeps computed existing _ d Hempty Hexisting Hprior).
  unfold Index.writeOutput.
  rewrite (insert_id d _ existing Hexisting), Hexisting.
  repeat split; reflexivity.
Qed.

Lemma persist_keeps_prior_deals_witness :
  Index.persist Config.config Config.temple_belton Scenario.emptyOutput
    Scenario.disk = Some Scenario.disk
  /\ length <$> (deals <$> Scenario.disk !! Scenario.templePath) = Some 5%nat.
Proof.
  destruct (persist_keeps_prior_deals Config.config Config.temple_belton
              Scenario.emptyOutput Scenario.disk "temple-belton-deals.json"
              Scenario.fiveDeals)
    as (d' & Hpersist & _ & Hdeals & Hsame).
  - reflexivity.
  - reflexivity.
  - reflexivity.
  - discriminate.
  - subst d'. split; [exact Hpersist|].
    change (Index.path_join _ _) with Scenario.templePath in Hdeals.
    rewrite Hdeals. reflexivity.
Defined.


(** A run while the service is down: every market computes no deal, the
    file with the five deals is kept, and the two markets without a file
    get an empty one. *)
Example main_service_down :
  match Index.main Config.config Scenario.deadService Scenario.now
          {| Index.apiCallCount := 7; Index.disk := Scenario.disk |} with
  | inr w' =>
      Index.disk w' !! Scenario.templePath = Some Scenario.fiveDeals
      /\ length (deals Scenario.fiveDeals) = 5%nat
      /\ (deals <$> Index.disk w' !! "./data/killeen-deals.json"%string)
         = Some []
      /\ Index.apiCallCount w' = 0%nat
  | inl _ => False
  end.
Proof. vm_compute. repeat split; reflexivity. Qed.

(** ** The output of a market, whatever the service answers *)

Lemma descending_fmap {A B : Type} (f : A -> B) (key : B -> JS.num)
    (l : list A) :
  descending key (map f l) <-> descending (fun a => key (f a)) l.
Proof.
  induction l as [|a l IH]; [reflexivity|].
  cbn [map]. rewrite !descending_cons, IH. destruct l; reflexivity.
Qed.

Lemma formatted_from (k : nat) (ds : list Listing) :
  let formatted :=
    imap (fun index deal => Analyze.formatDealForOutput deal (index + k)) ds in
  length formatted = length ds
  /\ map d_grossYield formatted = map grossYield ds.
Proof.
  cbv zeta. revert k. induction ds as [|d ds IH]; intros k; [split; reflexivity|].
  cbn [imap map length].
  assert (E : imap ((fun index deal =>
                       Analyze.formatDealForOutput deal (index + k)) ∘ S) ds
              = imap (fun index deal =>
                        Analyze.formatDealForOutput deal (index + S k)) ds).
  { apply imap_ext. intros i x _. cbn. f_equal. lia. }
  rewrite E. destruct (IH (S k)) as [Hlen Hgy].
  split; [now rewrite Hlen|]. now rewrite Hgy.
Qed.

Lemma enrichWithRentEstimates_rentEstimate
    (service : Rentcast.Service) (candidates : list Listing) (n : nat) :
  Forall (fun l => is_Some (rentEstimate l))
         (fst (Rentcast.enrichWithRentEstimates service candidates n)).
Proof.
  destruct (enrichLoop_spec service candidates [] n) as [Hres _].
  unfold Rentcast.enrichWithRentEstimates. rewrite Hres. cbn [app].
  apply Forall_forall. intros l Hin.
  apply list_elem_of_omap in Hin as (candidate & _ & Hc).
  destruct (enriched_rentNonzero service candidate l Hc) as (r & Hr & _).
  exists r. exact Hr.
Qed.

(** X12. Whatever the service answers, the output of a market has at most
    [topDealsCount] deals, ranked 1, 2, ... in sequence order and in
    descending order of the gross yield, and [totalDeals] counts them. *)
Theorem processMarket_output
    (config : Config.t) (service : Rentcast.Service)
    (now : Config.Market -> string) (market : Config.Market) (n : nat) :
  let out := fst (Index.processMarket config service now market n) in
  (length (deals out) <= Config.topDealsCount (Config.analysis config))%nat
  /\ map rank (deals out) = seq 1 (length (deals out))
  /\ descending JS.to_number (map d_grossYield (deals out))
  /\ totalDeals (summary out) = length (deals out).
Proof.
  assert (Hnil : forall now',
    let out := Analyze.createMarketOutput [] market now' in
    (length (deals out) <= Config.topDealsCount (Config.analysis config))%nat
    /\ map rank (deals out) = seq 1 (length (deals out))
    /\ descending JS.to_number (map d_grossYield (deals out))
    /\ totalDeals (summary out) = length (deals out)).
  { intros now'. cbn. repeat split. lia. }
  cbv zeta. unfold Index.processMarket, Rentcast.bind.
  destruct (Rentcast.getListingsForMarket config service market n)
    as [[|raw0 raw] n1]; [apply Hnil|].
  destruct (Analyze.applyHeuristicFilter config (raw0 :: raw))
    as [|f0 filtered] eqn:Ef; [apply Hnil|].
  pose proof (enrichWithRentEstimates_rentEstimate service
                (Analyze.selectTopCandidates config (f0 :: filtered)) n1)
    as Hrent.
  destruct (Rentcast.enrichWithRentEstimates service
              (Analyze.selectTopCandidates config (f0 :: filtered)) n1)
    as [[|e0 enriched] n2]; [apply Hnil|].
  cbn [fst] in *.
  set (ranked := Analyze.rankAndSelectTopDeals config
                   (Analyze.calculateInvestmentMetrics config (e0 :: enriched))).
  destruct (formatted_from 1 ranked) as [Hlen Hgy].
  cbn [Analyze.createMarketOutput deals summary totalDeals Rentcast.ret fst].
  rewrite Hlen, Hgy.
  split; [apply take_at_most|]. split; [apply (ranks_from 1)|].
  split; [|reflexivity].
  apply descending_fmap. unfold ranked.
  rewrite rankAndSelectTopDeals_eq.
  apply descending_take, (sort_descending grossYieldKey).
  apply calculateInvestmentMetrics_bearing. exact Hrent.
Qed.

(* ===================================================================== *)
(** * Further properties of the pipeline                                   *)
(* ===================================================================== *)

(** ** What the two sorts select *)

Section SelectFacts.
Context {A : Type}.
Variable key : A -> JS.num.

Lemma leb_trans (a b c : JS.num) :
  JS.leb a b = true -> JS.leb b c = true -> JS.leb a c = true.
Proof.
  destruct a as [x| | |], b as [y| | |], c as [z| | |]; cbn;
    try discriminate; try reflexivity.
  rewrite !Qle_bool_iff. apply Qle_trans.
Qed.

Lemma descending_all (a : A) (l : list A) :
  descending key (a :: l) ->
  Forall (fun b => JS.geb (key a) (key b) = true) l.
Proof.
  revert a. induction l as [|b l IH]; intros a Hd; [constructor|].
  apply descending_cons in Hd as [Hab Hd]. constructor; [exact Hab|].
  eapply Forall_impl; [exact (IH b Hd)|].
  intros c Hbc. unfold JS.geb in *. exact (leb_trans _ _ _ Hbc Hab).
Qed.

(** In a descending list, what [take n] keeps is at least what it leaves. *)
Lemma descending_split (n : nat) (l : list A) (a b : A) :
  descending key l -> a ∈ take n l -> b ∈ drop n l ->
  JS.geb (key a) (key b) = true.
Proof.
  revert l. induction n as [|n IH]; intros [|x l] Hd Ha Hb;
    cbn [take drop] in *; try (now apply elem_of_nil in Ha).
  pose proof (descending_all x l Hd) as Hall.
  apply descending_cons in Hd as [_ Hd].
  apply elem_of_cons in Ha as [->|Ha]; [|exact (IH l Hd Ha Hb)].
  rewrite Forall_forall in Hall. apply Hall.
  apply list_elem_of_lookup_1 in Hb as [i Hi]. rewrite lookup_drop in Hi.
  exact (list_elem_of_lookup_2 _ _ _ Hi).
Qed.

Lemma sort_insert_Permutation cmp (x : A) (l : list A) :
  sort_insert cmp x l ≡ₚ x :: l.
Proof.
  induction l as [|y l IH]; [reflexivity|].
  cbn [sort_insert]. destruct (JS.ltb _ _); [|reflexivity].
  rewrite IH. apply Permutation_swap.
Qed.

Lemma sort_Permutation cmp (l : list A) : sort cmp l ≡ₚ l.
Proof.
  induction l as [|x l IH]; [reflexivity|].
  cbn [sort]. now rewrite sort_insert_Permutation, IH.
Qed.

(** The stable sort by the key followed by [take n] selects [n] elements
    of the greatest keys. *)
Lemma top_selection (n : nat) (l : list A) :
  Forall (numeric key) l ->
  let selected := take n (sort (by_key key) l) in
  let rest := drop n (sort (by_key key) l) in
  selected ++ rest ≡ₚ l
  /\ length selected = (n `min` length l)%nat
  /\ (forall a b : A, a ∈ selected -> b ∈ rest ->
       JS.geb (key a) (key b) = true).
Proof.
  intros Hnum. cbv zeta. split; [|split].
  - rewrite take_drop. apply sort_Permutation.
  - rewrite length_take, sort_length. reflexivity.
  - intros a b. apply descending_split. now apply sort_descending.
Qed.
End SelectFacts.

(** X1. For metrics-bearing listings the ranking loses and invents nothing
    and returns the best: its output, together with the listings it leaves
    out, is a rearrangement of the input; it returns exactly
    [min(topDealsCount, length)] listings; and no listing left out has a
    greater gross yield than a listing returned. *)
Theorem rankAndSelectTopDeals_selects_top
    (config : Config.t) (listings : list Listing)
    (Hmetrics : Forall metrics_bearing listings) :
  exists rest : list Listing,
    Analyze.rankAndSelectTopDeals config listings ++ rest ≡ₚ listings
    /\ length (Analyze.rankAndSelectTopDeals config listings)
       = (Config.topDealsCount (Config.analysis config)
            `min` length listings)%nat
    /\ (forall a b : Listing,
          a ∈ Analyze.rankAndSelectTopDeals config listings -> b ∈ rest ->
          JS.geb (grossYieldKey a) (grossYieldKey b) = true).
Proof.
  rewrite rankAndSelectTopDeals_eq.
  eexists. exact (top_selection grossYieldKey _ listings Hmetrics).
Qed.

Lemma rankAndSelectTopDeals_selects_top_witness :
  exists rest : list Listing,
    Analyze.rankAndSelectTopDeals Scenario.topTwo Scenario.withMetrics ++ rest
    ≡ₚ Scenario.withMetrics
    /\ length (Analyze.rankAndSelectTopDeals Scenario.topTwo
                 Scenario.withMetrics) = 2%nat.
Proof.
  destruct (rankAndSelectTopDeals_selects_top Scenario.topTwo
              Scenario.withMetrics ltac:(repeat constructor))
    as (rest & Hperm & Hlen & _).
  exists rest. split; [exact Hperm|exact Hlen].
Defined.

(** X2. For listings that all have a square footage, candidate selection
    returns the best candidates: its output and the candidates it leaves
    out are together a rearrangement of the input listings with their
    heuristic yield attached (nothing else about a listing changes); it
    returns exactly [min(maxPropertiesToAnalyze, length)] candidates; and
    no candidate left out has a greater heuristic yield than one
    returned. *)
Theorem selectTopCandidates_selects_top
    (config : Config.t) (listings : list Listing)
    (Hsqft : Forall (fun l => is_Some (squareFootage (prop l))) listings) :
  exists rest : list Listing,
    Analyze.selectTopCandidates config listings ++ rest
    ≡ₚ map (fun l => with_heuristicYield l (Analyze.heuristicYieldOf config l))
           listings
    /\ length (Analyze.selectTopCandidates config listings)
       = (Config.maxPropertiesToAnalyze (Config.analysis config)
            `min` length listings)%nat
    /\ (forall a b : Listing,
          a ∈ Analyze.selectTopCandidates config listings -> b ∈ rest ->
          JS.geb (heuristicYieldKey a) (heuristicYieldKey b) = true).
Proof.
  rewrite selectTopCandidates_eq.
  assert (Hnum : Forall (numeric heuristicYieldKey)
            (map (fun l =>
                    with_heuristicYield l (Analyze.heuristicYieldOf config l))
                 listings)).
  { apply Forall_fmap. eapply Forall_impl; [exact Hsqft|].
    intros l [s Hs]. exact (heuristicYieldOf_numeric config l s Hs). }
  eexists.
  pose proof (top_selection heuristicYieldKey
                (Config.maxPropertiesToAnalyze (Config.analysis config))
                _ Hnum) as H.
  cbv zeta in H. rewrite length_map in H. exact H.
Qed.

Lemma selectTopCandidates_selects_top_witness :
  exists rest : list Listing,
    length (Analyze.selectTopCandidates Scenario.topTwo
              [Scenario.listing Scenario.B; Scenario.listing Scenario.A;
               Scenario.listing Scenario.C]) = 2%nat
    /\ length rest = 1%nat.
Proof.
  destruct (selectTopCandidates_selects_top Scenario.topTwo
              [Scenario.listing Scenario.B; Scenario.listing Scenario.A;
               Scenario.listing Scenario.C]
              ltac:(repeat constructor; eexists; reflexivity))
    as (rest & Hperm & Hlen & _).
  exists rest. split; [exact Hlen|].
  apply Permutation_length in Hperm.
  rewrite length_app, Hlen in Hperm. cbn in Hperm. lia.
Defined.

(** X3. Candidate selection is stable as well: on listings that all have
    a square footage (as the output of stage 1 has), for every heuristic
    yield [g], the candidates of the output whose yield is [g] are, in
    this order, the first listings of the input whose yield is [g]. *)
Theorem selectTopCandidates_stable
    (config : Config.t) (listings : list Listing) (g : JS.num)
    (Hsqft : Forall (fun l => is_Some (squareFootage (prop l))) listings) :
  map prop
    (List.filter (tied heuristicYieldKey g)
       (Analyze.selectTopCandidates config listings))
  `prefix_of`
  map prop
    (List.filter (fun l => JS.eqb (Analyze.heuristicYieldOf config l) g)
       listings).
Proof.
  rewrite selectTopCandidates_eq.
  assert (E : map prop
                (List.filter
                   (fun l => JS.eqb (Analyze.heuristicYieldOf config l) g)
                   listings)
              = map prop
                  (List.filter (tied heuristicYieldKey g)
                     (map (fun l =>
                             with_heuristicYield l
                               (Analyze.heuristicYieldOf config l))
                          listings))).
  { clear Hsqft. induction listings as [|l ls IH]; [reflexivity|].
    cbn [map List.filter]. unfold tied at 1. cbn.
    destruct (JS.eqb (Analyze.heuristicYieldOf config l) g); cbn [map];
      now rewrite IH. }
  rewrite E.
  rewrite <- (sort_tied heuristicYieldKey g
                (map (fun l =>
                        with_heuristicYield l
                          (Analyze.heuristicYieldOf config l))
                     listings)).
  destruct (filter_take_prefix (tied heuristicYieldKey g)
              (Config.maxPropertiesToAnalyze (Config.analysis config))
              (sort (by_key heuristicYieldKey)
                 (map (fun l =>
                         with_heuristicYield l
                           (Analyze.heuristicYieldOf config l))
                      listings))) as [k Hk].
  exists (map prop k). rewrite Hk, map_app. reflexivity.
Qed.

Lemma selectTopCandidates_stable_witness :
  map prop
    (List.filter (tied heuristicYieldKey (JS.Fin 12))
       (Analyze.selectTopCandidates Scenario.topTwo
          [Scenario.listing Scenario.C; Scenario.listing Scenario.B;
           Scenario.listing Scenario.C]))
  `prefix_of` [Scenario.C; Scenario.C].
Proof.
  exact (selectTopCandidates_stable Scenario.topTwo
           [Scenario.listing Scenario.C; Scenario.listing Scenario.B;
            Scenario.listing Scenario.C]
           (JS.Fin 12) ltac:(repeat constructor; eexists; reflexivity)).
Defined.

(** ** Fetching the listings of a market *)

Section FetchFacts.
Import Config Rentcast.
Variable config : Config.t.
Variable service : Service.

Lemma getListings_result (c st : string) (n : nat) :
  fst (getListings config service c st n)
  = fst (getListings config service c st 0%nat)
  /\ (n <= snd (getListings config service c st n) <= S n)%nat.
Proof.
  unfold getListings. destruct (listings_sale service _); cbn; split;
    try reflexivity; lia.
Qed.

Lemma listingsOfCities_spec (market : Market) (locations : list Location)
    (allListings : list Listing) (n : nat) :
  fst (listingsOfCities config service market locations allListings n)
  = allListings
    ++ concat (map (fun location =>
                      map (fun p => with_market p (market_id market)
                                      (market_name market))
                          (cityListings config service location))
                   locations)
  /\ (n <= snd (listingsOfCities config service market locations
                  allListings n)
      <= n + length locations)%nat.
Proof.
  revert allListings n.
  induction locations as [|location rest IH]; intros allListings n.
  - cbn. rewrite app_nil_r. split; [reflexivity|lia].
  - cbn [listingsOfCities]. unfold bind.
    pose proof (getListings_result (loc_city location) (loc_state location) n)
      as [Hres Hcount].
    destruct (getListings config service _ _ n) as [listings n'].
    cbn [fst snd] in Hres, Hcount.
    destruct (IH (allListings
                  ++ map (fun listing =>
                            with_market listing (market_id market)
                              (market_name market)) listings) n')
      as [IHres IHcount].
    split; [|cbn [length]; lia].
    rewrite IHres, Hres. cbn [map concat]. unfold cityListings.
    now rewrite <- app_assoc.
Qed.
End FetchFacts.

(** X4. The listings of a market are the listings the service returns for
    its cities, in the order of the cities, each tagged with the id and
    the name of the market and with no derived field yet; a city whose
    request fails contributes no listing and does not stop the others. The
    fetch counts at most one API call per city. *)
Theorem getListingsForMarket_spec
    (config : Config.t) (service : Rentcast.Service)
    (market : Config.Market) (n : nat) :
  let run := Rentcast.getListingsForMarket config service market n in
  fst run
  = concat (map (fun location =>
                   map (fun p => with_market p (Config.market_id market)
                                   (Config.market_name market))
                       (cityListings config service location))
                (Config.cities market))
  /\ Forall (fun l => marketId l = Some (Config.market_id market)
                      /\ marketName l = Some (Config.market_name market)
                      /\ rentEstimate l = None /\ grossYield l = None)
            (fst run)
  /\ (n <= snd run <= n + length (Config.cities market))%nat.
Proof.
  cbv zeta. unfold Rentcast.getListingsForMarket.
  destruct (listingsOfCities_spec config service market
              (Config.cities market) [] n) as [Hres Hcount].
  cbn [app] in Hres. split; [exact Hres|]. split; [|exact Hcount].
  rewrite Hres. apply Forall_concat, Forall_fmap, Forall_true.
  intros location. apply Forall_fmap, Forall_true. intros p.
  repeat split.
Qed.

(** ** The number of API calls *)

Lemma enrichLoop_count (service : Rentcast.Service)
    (properties enriched : list Listing) (n : nat) :
  (n <= snd (Rentcast.enrichLoop service properties enriched n))%nat.
Proof.
  revert enriched n.
  induction properties as [|property rest IH]; intros enriched n; [cbn; lia|].
  cbn [Rentcast.enrichLoop]. unfold Rentcast.bind, Rentcast.getRentEstimate.
  destruct (Rentcast.avm_rent service _); cbn.
  - exact (IH _ n).
  - etransitivity; [|apply IH]. lia.
Qed.

Lemma selectTopCandidates_length (config : Config.t) (listings : list Listing) :
  length (Analyze.selectTopCandidates config listings)
  = (Config.maxPropertiesToAnalyze (Config.analysis config)
       `min` length listings)%nat.
Proof.
  rewrite selectTopCandidates_eq, length_take, sort_length, length_map.
  reflexivity.
Qed.

Lemma processMarket_count
    (config : Config.t) (service : Rentcast.Service)
    (now : Config.Market -> string) (market : Config.Market) (n : nat) :
  let raw := fst (Rentcast.getListingsForMarket config service market n) in
  let calls := snd (Index.processMarket config service now market n) in
  (n <= calls)%nat
  /\ (calls <= n + length (Config.cities market)
               + (Config.maxPropertiesToAnalyze (Config.analysis config)
                    `min` length (Analyze.applyHeuristicFilter config raw)))%nat.
Proof.
  cbv zeta. unfold Index.processMarket, Rentcast.bind.
  destruct (listingsOfCities_spec config service market
              (Config.cities market) [] n) as [_ Hfetch].
  unfold Rentcast.getListingsForMarket.
  destruct (Rentcast.listingsOfCities config service market
              (Config.cities market) [] n) as [raw n1].
  cbn [fst snd] in *.
  destruct raw as [|raw0 raw]; [cbn; lia|].
  destruct (Analyze.applyHeuristicFilter config (raw0 :: raw))
    as [|f0 filtered]; [cbn; lia|].
  pose proof (enrichLoop_spec service
                (Analyze.selectTopCandidates config (f0 :: filtered)) [] n1)
    as [_ Hup].
  pose proof (enrichLoop_count service
                (Analyze.selectTopCandidates config (f0 :: filtered)) [] n1)
    as Hlow.
  rewrite selectTopCandidates_length in Hup.
  unfold Rentcast.enrichWithRentEstimates.
  destruct (Rentcast.enrichLoop service _ [] n1) as [[|e0 enriched] n2];
    cbn [fst snd Rentcast.ret] in *; lia.
Qed.

(** X5. The funnel bounds the use of the API. One run of the pipeline on
    a market counts at most one call per city of the market plus one per
    listing that passed the heuristic filter, and never more than
    [maxPropertiesToAnalyze] of the latter; the counter never goes down. *)
Theorem processMarket_api_calls
    (config : Config.t) (service : Rentcast.Service)
    (now : Config.Market -> string) (market : Config.Market) (n : nat) :
  let raw := fst (Rentcast.getListingsForMarket config service market n) in
  let calls := snd (Index.processMarket config service now market n) in
  (n <= calls)%nat
  /\ (calls <= n + length (Config.cities market)
               + length (Analyze.applyHeuristicFilter config raw))%nat
  /\ (calls <= n + length (Config.cities market)
               + Config.maxPropertiesToAnalyze (Config.analysis config))%nat.
Proof.
  cbv zeta.
  pose proof (processMarket_count config service now market n) as H.
  cbv zeta in H. lia.
Qed.

Lemma mainLoop_count
    (config : Config.t) (service : Rentcast.Service)
    (now : Config.Market -> string) (ms : list Config.Market)
    (w : Index.World) :
  (Index.apiCallCount (final (Index.mainLoop config service now ms w))
   <= Index.apiCallCount w + apiBudget config ms)%nat.
Proof.
  revert w. induction ms as [|m ms IH]; intros w; [cbn; lia|].
  cbn [Index.mainLoop].
  pose proof (processMarket_count config service now m (Index.apiCallCount w))
    as H. cbv zeta in H.
  destruct (Index.processMarket config service now m (Index.apiCallCount w))
    as [computed calls]. cbn [snd] in H.
  assert (E : apiBudget config (m :: ms)
              = (length (Config.cities m)
                 + Config.maxPropertiesToAnalyze (Config.analysis config)
                 + apiBudget config ms)%nat) by reflexivity.
  rewrite E.
  destruct (Index.persist config m computed (Index.disk w)) as [d|].
  - etransitivity; [apply IH|]. cbn [Index.apiCallCount]. lia.
  - cbn. lia.
Qed.

(** X6. A run resets the counter and then counts at most one API call per
    city and [maxPropertiesToAnalyze] per market, whatever the counter was
    before and whether the run completes or aborts. *)
Theorem main_api_budget
    (config : Config.t) (service : Rentcast.Service)
    (now : Config.Market -> string) (w : Index.World) :
  (Index.apiCallCount (final (Index.main config service now w))
   <= apiBudget config (Config.markets config))%nat.
Proof.
  unfold Index.main. cbn.
  pose proof (mainLoop_count config service now (Config.markets config)
                {| Index.apiCallCount := 0; Index.disk := Index.disk w |}) as H.
  cbn in H. exact H.
Qed.

(** ** Writing the results *)

(** X7. What the validate-and-write step leaves on the disk. For a market
    with a file name the step succeeds and the file of the market exists
    afterwards. It holds the computed output whenever that output has
    deals, whenever there was no file before (the first run writes even an
    empty output), and whenever the file before had no deals. No other
    file of the disk changes. *)
Theorem persist_writes
    (config : Config.t) (market : Config.Market) (computed : MarketOutput)
    (d : gmap string MarketOutput) (filename : string)
    (Hfile : Config.files (Config.output config) !! Config.market_id market
             = Some filename) :
  let path :=
    Index.path_join (Config.directory (Config.output config)) filename in
  exists d' : gmap string MarketOutput,
    Index.persist config market computed d = Some d'
    /\ is_Some (d' !! path)
    /\ (deals computed <> [] -> d' !! path = Some computed)
    /\ (d !! path = None -> d' !! path = Some computed)
    /\ (forall e : MarketOutput,
          d !! path = Some e -> deals e = [] -> d' !! path = Some computed)
    /\ (forall other : string, other <> path -> d' !! other = d !! other).
Proof.
  intros path. unfold Index.persist. rewrite Hfile.
  eexists. split; [reflexivity|]. unfold Index.writeOutput. fold path.
  split; [rewrite lookup_insert_eq; eexists; reflexivity|].
  split; [|split; [|split]].
  - intros Hnew. rewrite lookup_insert_eq.
    now rewrite (validateOutput_fresh computed path d Hnew).
  - intros Hnone. rewrite lookup_insert_eq.
    now rewrite (validateOutput_first_run computed path d Hnone).
  - intros e He Hdeals. rewrite lookup_insert_eq. f_equal.
    unfold Index.validateOutput. rewrite He, Hdeals.
    destruct (deals computed); reflexivity.
  - intros other Hother. now rewrite lookup_insert_ne.
Qed.

Lemma persist_writes_witness :
  exists d' : gmap string MarketOutput,
    Index.persist Config.config Config.killeen Scenario.emptyOutput
      Scenario.disk = Some d'
    /\ d' !! "./data/killeen-deals.json"%string = Some Scenario.emptyOutput
    /\ d' !! Scenario.templePath = Some Scenario.fiveDeals.
Proof.
  destruct (persist_writes Config.config Config.killeen Scenario.emptyOutput
              Scenario.disk "killeen-deals.json" eq_refl)
    as (d' & Hpersist & _ & _ & Hfirst & _ & Hframe).
  exists d'. split; [exact Hpersist|]. split.
  - apply Hfirst. reflexivity.
  - rewrite (Hframe Scenario.templePath); [reflexivity|discriminate].
Defined.

(** X8. The validate-and-write step is idempotent: repeating it with the
    same computed output on the disk it produced changes nothing. *)
Theorem persist_idempotent
    (config : Config.t) (market : Config.Market) (computed : MarketOutput)
    (d d' : gmap string MarketOutput)
    (Hpersist : Index.persist config market computed d = Some d') :
  Index.persist config market computed d' = Some d'.
Proof.
  unfold Index.persist in *.
  destruct (Config.files (Config.output config) !! Config.market_id market)
    as [filename|]; [|discriminate].
  injection Hpersist as <-. f_equal. unfold Index.writeOutput.
  set (path := Index.path_join _ filename).
  assert (E : Index.validateOutput computed path
                (<[path := Index.validateOutput computed path d]> d)
              = Index.validateOutput computed path d).
  { unfold Index.validateOutput at 1. rewrite lookup_insert_eq.
    unfold Index.validateOutput.
    destruct (deals computed) eqn:Hc; [|reflexivity].
    destruct (d !! path) as [e|]; [|now rewrite Hc].
    destruct (deals e) eqn:He; [now rewrite Hc|now rewrite He]. }
  rewrite E. apply insert_insert_eq.
Qed.

Lemma persist_idempotent_witness :
  Index.persist Config.config Config.temple_belton Scenario.result
    (<[Scenario.templePath := Scenario.result]> Scenario.disk)
  = Some (<[Scenario.templePath := Scenario.result]> Scenario.disk).
Proof.
  apply (persist_idempotent Config.config Config.temple_belton
           Scenario.result Scenario.disk).
  reflexivity.
Defined.

(** ** The run over the markets *)

Lemma persist_keeps_files
    (config : Config.t) (market : Config.Market) (computed : MarketOutput)
    (d d' : gmap string MarketOutput) (p : string) :
  Index.persist config market computed d = Some d' ->
  is_Some (d !! p) -> is_Some (d' !! p).
Proof.
  unfold Index.persist, Index.writeOutput.
  destruct (Config.files (Config.output config) !! Config.market_id market)
    as [filename|]; [|discriminate].
  intros [= <-] Hp. rewrite lookup_insert.
  case_decide; [eexists; reflexivity|exact Hp].
Qed.

Lemma mainLoop_completes
    (config : Config.t) (service : Rentcast.Service)
    (now : Config.Market -> string) (ms : list Config.Market)
    (w : Index.World) :
  Forall (fun m => is_Some (marketPath config m)) ms ->
  exists w' : Index.World,
    Index.mainLoop config service now ms w = inr w'
    /\ (forall p : string,
          is_Some (Index.disk w !! p) -> is_Some (Index.disk w' !! p))
    /\ (forall m : Config.Market, m ∈ ms ->
          exists p : string,
            marketPath config m = Some p /\ is_Some (Index.disk w' !! p)).
Proof.
  intros Hms. revert w.
  induction Hms as [|m ms [p Hp] _ IH]; intros w.
  - exists w. split; [reflexivity|]. split; [auto|].
    intros m Hm. now apply elem_of_nil in Hm.
  - cbn [Index.mainLoop].
    destruct (Index.processMarket config service now m (Index.apiCallCount w))
      as [computed calls].
    unfold marketPath in Hp.
    destruct (Config.files (Config.output config) !! Config.market_id m)
      as [filename|] eqn:Hfile; [|discriminate].
    cbn in Hp. injection Hp as <-.
    destruct (persist_writes config m computed (Index.disk w) filename Hfile)
      as (d' & Hpersist & Hexists & _).
    rewrite Hpersist.
    destruct (IH {| Index.apiCallCount := calls; Index.disk := d' |})
      as (w' & Hrun & Hkeep & Hall).
    exists w'. split; [exact Hrun|]. cbn [Index.disk] in Hkeep. split.
    + intros q Hq. apply Hkeep.
      exact (persist_keeps_files config m computed _ d' q Hpersist Hq).
    + intros m' Hm'. apply elem_of_cons in Hm' as [->|Hm']; [|now apply Hall].
      eexists. split; [unfold marketPath; rewrite Hfile; reflexivity|].
      now apply Hkeep.
Qed.

Lemma mainLoop_aborts
    (config : Config.t) (service : Rentcast.Service)
    (now : Config.Market -> string) (ms : list Config.Market)
    (w w' : Index.World) :
  Index.mainLoop config service now ms w = inr w' ->
  Forall (fun m => is_Some (marketPath config m)) ms.
Proof.
  revert w. induction ms as [|m ms IH]; intros w Hrun; [constructor|].
  cbn [Index.mainLoop] in Hrun.
  destruct (Index.processMarket config service now m (Index.apiCallCount w))
    as [computed calls].
  unfold Index.persist in Hrun.
  destruct (Config.files (Config.output config) !! Config.market_id m)
    as [filename|] eqn:Hfile; [|discriminate].
  constructor; [|exact (IH _ Hrun)].
  unfold marketPath. rewrite Hfile. eexists. reflexivity.
Qed.

(** X9. A market without a file name in [config.output.files] aborts the
    run. Whenever a run completes, every configured market has a file
    name, the file of every market is on the disk, and no file that was on
    the disk before is gone. *)
Theorem main_aborts_or_writes_all
    (config : Config.t) (service : Rentcast.Service)
    (now : Config.Market -> string) (w : Index.World) :
  (Exists (fun m => marketPath config m = None) (Config.markets config) ->
   exists w' : Index.World, Index.main config service now w = inl w')
  /\ (forall w' : Index.World,
        Index.main config service now w = inr w' ->
        Forall (fun m => is_Some (marketPath config m))
               (Config.markets config)
        /\ (forall m : Config.Market, m ∈ Config.markets config ->
              exists p : string,
                marketPath config m = Some p /\ is_Some (Index.disk w' !! p))
        /\ (forall p : string,
              is_Some (Index.disk w !! p) -> is_Some (Index.disk w' !! p))).
Proof.
  unfold Index.main. cbn [Rentcast.resetApiCallCount].
  split.
  - intros Hmissing.
    destruct (Index.mainLoop config service now (Config.markets config)
                {| Index.apiCallCount := 0; Index.disk := Index.disk w |})
      as [w'|w'] eqn:Hrun; [exists w'; reflexivity|].
    pose proof (mainLoop_aborts config service now _ _ w' Hrun) as Hms.
    apply Exists_exists in Hmissing as (m & Hm & Hnone).
    rewrite Forall_forall in Hms. destruct (Hms m Hm) as [p Hp].
    congruence.
  - intros w' Hrun.
    pose proof (mainLoop_aborts config service now _ _ w' Hrun) as Hms.
    destruct (mainLoop_completes config service now (Config.markets config)
                {| Index.apiCallCount := 0; Index.disk := Index.disk w |} Hms)
      as (w'' & Hrun' & Hkeep & Hall).
    rewrite Hrun in Hrun'. injection Hrun' as <-.
    split; [exact Hms|]. split; [exact Hall|exact Hkeep].
Qed.

Lemma main_aborts_or_writes_all_witness :
  exists w' : Index.World,
    Index.main Config.config Scenario.service Scenario.now
      {| Index.apiCallCount := 7; Index.disk := Scenario.disk |} = inr w'
    /\ is_Some (Index.disk w' !! "./data/killeen-deals.json"%string).
Proof.
  destruct (mainLoop_completes Config.config Scenario.service Scenario.now
              (Config.markets Config.config)
              {| Index.apiCallCount := 0; Index.disk := Scenario.disk |})
    as (w' & Hrun & _).
  { repeat constructor; eexists; reflexivity. }
  exists w'. split; [exact Hrun|].
  destruct (main_aborts_or_writes_all Config.config Scenario.service
              Scenario.now
              {| Index.apiCallCount := 7; Index.disk := Scenario.disk |})
    as [_ Hfiles].
  destruct (Hfiles w' Hrun) as (_ & Hall & _).
  destruct (Hall Config.killeen) as (p & Hp & Hdisk).
  { right. right. left. }
  injection Hp as <-. exact Hdisk.
Defined.

(** ** A run while the service is down *)

Lemma listingsOfCities_down
    (config : Config.t) (service : Rentcast.Service)
    (market : Config.Market) (locations : list Config.Location)
    (allListings : list Listing) (n : nat) :
  serviceDown service ->
  Rentcast.listingsOfCities config service market locations allListings n
  = (allListings, n).
Proof.
  intros [Hdown _]. revert allListings.
  induction locations as [|location rest IH]; intros allListings;
    [reflexivity|].
  cbn [Rentcast.listingsOfCities].
  unfold Rentcast.bind, Rentcast.getListings. rewrite Hdown. cbn.
  rewrite IH, app_nil_r. reflexivity.
Qed.

Lemma processMarket_down
    (config : Config.t) (service : Rentcast.Service)
    (now : Config.Market -> string) (market : Config.Market) (n : nat) :
  serviceDown service ->
  Index.processMarket config service now market n
  = (Analyze.createMarketOutput [] market (now market), n).
Proof.
  intros Hdown. unfold Index.processMarket, Rentcast.bind,
    Rentcast.getListingsForMarket.
  rewrite (listingsOfCities_down config service market _ [] n Hdown).
  reflexivity.
Qed.

Lemma mainLoop_down
    (config : Config.t) (service : Rentcast.Service)
    (now : Config.Market -> string) (ms : list Config.Market)
    (w : Index.World) :
  serviceDown service ->
  let w' := final (Index.mainLoop config service now ms w) in
  Index.apiCallCount w' = Index.apiCallCount w
  /\ (forall (p : string) (e : MarketOutput),
        Index.disk w !! p = Some e -> deals e <> [] ->
        Index.disk w' !! p = Some e).
Proof.
  intros Hdown. cbv zeta. revert w.
  induction ms as [|m ms IH]; intros w; [cbn; auto|].
  cbn [Index.mainLoop].
  rewrite (processMarket_down config service now m _ Hdown).
  unfold Index.persist.
  destruct (Config.files (Config.output config) !! Config.market_id m)
    as [filename|]; [|cbn; auto].
  destruct (IH {| Index.apiCallCount := Index.apiCallCount w;
                  Index.disk :=
                    Index.writeOutput config
                      (Index.validateOutput
                         (Analyze.createMarketOutput [] m (now m))
                         (Index.path_join
                            (Config.directory (Config.output config)) filename)
                         (Index.disk w))
                      filename (Index.disk w) |}) as [Hcalls Hkeep].
  split; [exact Hcalls|].
  intros p e He Hdeals. apply Hkeep; [|exact Hdeals].
  cbn [Index.disk]. unfold Index.writeOutput.
  set (path := Index.path_join _ filename).
  destruct (decide (path = p)) as [<-|Hne].
  - rewrite lookup_insert_eq. f_equal.
    now apply validateOutput_keeps.
  - now rewrite lookup_insert_ne.
Qed.

(** X10. When the service is down (every request throws), the run counts
    no API call and destroys nothing: every document with deals that was
    on the disk before the run is on the disk, unchanged, after it. *)
Theorem main_service_down_keeps_deals
    (config : Config.t) (service : Rentcast.Service)
    (now : Config.Market -> string) (w : Index.World)
    (Hdown : serviceDown service) :
  let w' := final (Index.main config service now w) in
  Index.apiCallCount w' = 0%nat
  /\ (forall (p : string) (e : MarketOutput),
        Index.disk w !! p = Some e -> deals e <> [] ->
        Index.disk w' !! p = Some e).
Proof.
  unfold Index.main. cbn [Rentcast.resetApiCallCount].
  exact (mainLoop_down config service now (Config.markets config)
           {| Index.apiCallCount := 0; Index.disk := Index.disk w |} Hdown).
Qed.

Lemma main_service_down_keeps_deals_witness :
  let w' :=
    final (Index.main Config.config Scenario.deadService Scenario.now
             {| Index.apiCallCount := 7; Index.disk := Scenario.disk |}) in
  Index.apiCallCount w' = 0%nat
  /\ Index.disk w' !! Scenario.templePath = Some Scenario.fiveDeals.
Proof.
  destruct (main_service_down_keeps_deals Config.config Scenario.deadService
              Scenario.now
              {| Index.apiCallCount := 7; Index.disk := Scenario.disk |})
    as [Hcalls Hkeep].
  { split; intros q; reflexivity. }
  split; [exact Hcalls|].
  apply Hkeep; [reflexivity|discriminate].
Defined.


(** ** What reaches the output of a market *)

Section SoundFacts.
Variable config : Config.t.
Variable market : Config.Market.

Lemma fetched_tagged (service : Rentcast.Service) (n : nat) :
  Forall (fun l => marketId l = Some (Config.market_id market)
                   /\ marketName l = Some (Config.market_name market))
         (fst (Rentcast.getListingsForMarket config service market n)).
Proof.
  unfold Rentcast.getListingsForMarket.
  destruct (listingsOfCities_spec config service market
              (Config.cities market) [] n) as [Hres _].
  rewrite Hres. cbn [app].
  apply Forall_concat, Forall_fmap, Forall_true.
  intros location. apply Forall_fmap, Forall_true. intros p. split; reflexivity.
Qed.

Lemma filtered_sound (listings : list Listing) :
  Forall (fun l => marketId l = Some (Config.market_id market)
                   /\ marketName l = Some (Config.market_name market))
         listings ->
  Forall (soundCandidate config market)
         (Analyze.applyHeuristicFilter config listings).
Proof.
  intros Htag. apply List.Forall_forall. intros l Hin.
  apply filter_In in Hin as [Hin Hpass].
  rewrite List.Forall_forall in Htag. destruct (Htag l Hin) as [Hid Hname].
  split; [exact Hid|]. split; [exact Hname|].
  now apply passesHeuristic_iff.
Qed.

Lemma selected_sound (listings : list Listing) :
  Forall (soundCandidate config market) listings ->
  Forall (soundCandidate config market)
         (Analyze.selectTopCandidates config listings).
Proof.
  intros H. rewrite selectTopCandidates_eq.
  apply Forall_take, sort_Forall, Forall_fmap.
  eapply Forall_impl; [exact H|]. intros l Hl. exact Hl.
Qed.

Lemma enriched_sound (service : Rentcast.Service) (candidates : list Listing)
    (n : nat) :
  Forall (soundCandidate config market) candidates ->
  Forall (fun l => soundCandidate config market l /\ rentNonzero l)
         (fst (Rentcast.enrichWithRentEstimates service candidates n)).
Proof.
  intros H. unfold Rentcast.enrichWithRentEstimates.
  destruct (enrichLoop_spec service candidates [] n) as [Hres _].
  rewrite Hres. cbn [app]. apply Forall_forall. intros l Hin.
  apply list_elem_of_omap in Hin as (candidate & Hc & Hl).
  rewrite Forall_forall in H. specialize (H candidate Hc).
  split; [|exact (enriched_rentNonzero service candidate l Hl)].
  unfold enrichedIfNonzero in Hl.
  destruct (rentLookup service candidate) as [data|]; [|discriminate].
  destruct (Rentcast.rent data) as [r|]; [|discriminate].
  destruct (Qeq_bool r 0); [discriminate|].
  injection Hl as <-. exact H.
Qed.

Lemma metricsOf_sound (l : Listing) :
  soundCandidate config market l -> rentNonzero l ->
  soundCandidate config market (Analyze.metricsOf config l)
  /\ soundMetrics (Analyze.metricsOf config l).
Proof.
  intros Hc Hr. split; [exact Hc|]. split; [exact Hr|].
  destruct Hc as (_ & _ & p & s & Hp & Hp0 & _).
  destruct Hr as (r & Hr & Hr0).
  assert (Ep : Qeq_bool p 0 = false).
  { destruct (Qeq_bool p 0) eqn:E; [|reflexivity].
    now apply Qeq_bool_iff in E. }
  pose proof (annualRent_nonzero r Hr0) as Ea. cbn in Ea.
  unfold Analyze.metricsOf, Analyze.calculateGrossYield.
  rewrite Hp, Hr. cbn. rewrite Ep, Ea. cbn.
  repeat split; reflexivity.
Qed.

Lemma formatted_sound (l : Listing) (r : nat) :
  soundCandidate config market l -> soundMetrics l ->
  soundDeal config market (Analyze.formatDealForOutput l r).
Proof.
  intros (Hid & Hname & p & s & Hp & Hp0 & Hs & Hs0 & Hy)
         ((r' & Hr & Hr0) & Hgy & Hgrm & Har).
  split; [exact Hid|]. split; [exact Hname|]. split.
  - exists p, s, r'. cbn. repeat split; assumption.
  - cbn. repeat split; assumption.
Qed.
End SoundFacts.

(** X13. Whatever the service answers, every deal of the output of a
    market is tagged with that market, has a price, a square footage and a
    rent estimate that are present and not zero, reaches the heuristic
    yield threshold, and carries a gross yield, a GRM and an annual rent
    that are numbers: no absent metric and no [NaN] reaches the output. *)
Theorem processMarket_deals_sound
    (config : Config.t) (service : Rentcast.Service)
    (now : Config.Market -> string) (market : Config.Market) (n : nat) :
  Forall (soundDeal config market)
         (deals (fst (Index.processMarket config service now market n))).
Proof.
  unfold Index.processMarket, Rentcast.bind.
  pose proof (fetched_tagged config market service n) as Hraw.
  destruct (Rentcast.getListingsForMarket config service market n)
    as [[|raw0 raw] n1]; [constructor|].
  cbn [fst] in Hraw.
  pose proof (filtered_sound config market _ Hraw) as Hfiltered.
  destruct (Analyze.applyHeuristicFilter config (raw0 :: raw))
    as [|f0 filtered]; [constructor|].
  pose proof (enriched_sound config market service _ n1
                (selected_sound config market _ Hfiltered)) as Henriched.
  destruct (Rentcast.enrichWithRentEstimates service
              (Analyze.selectTopCandidates config (f0 :: filtered)) n1)
    as [[|e0 enriched] n2]; [constructor|].
  cbn [fst Rentcast.ret Analyze.createMarketOutput deals] in *.
  rewrite rankAndSelectTopDeals_eq.
  assert (Hranked :
    Forall (fun l => soundCandidate config market l /\ soundMetrics l)
      (take (Config.topDealsCount (Config.analysis config))
         (sort (by_key grossYieldKey)
            (Analyze.calculateInvestmentMetrics config (e0 :: enriched))))).
  { apply Forall_take, sort_Forall, Forall_fmap.
    eapply Forall_impl; [exact Henriched|].
    intros l [Hc Hr]. exact (metricsOf_sound config market l Hc Hr). }
  apply Forall_lookup. intros i d Hd.
  rewrite list_lookup_imap in Hd.
  destruct (take _ _ !! i) as [l|] eqn:Hl; [|discriminate].
  cbn in Hd. injection Hd as <-.
  rewrite Forall_lookup in Hranked. destruct (Hranked i l Hl) as [Hc Hm].
  exact (formatted_sound config market l (i + 1) Hc Hm).
Qed.

(** ** Rounding *)

Section RoundFacts.
Import JS.

#[global] Instance Qnearest_Proper : Proper (Qeq ==> Qeq) Qnearest.
Proof. intros a b E. unfold Qnearest. now rewrite E. Qed.







End RoundFacts.

(** ** The metrics of stage 3 *)





(** ** The summary of a market output *)

Section SummaryFacts.
Import JS Analyze.

Lemma formatted_fields {B : Type} (g : Deal -> B) (h : Listing -> B)
    (k : nat) (ds : list Listing) :
  (forall l r, g (formatDealForOutput l r) = h l) ->
  map g (imap (fun index deal => formatDealForOutput deal (index + k)) ds)
  = map h ds.
Proof.
  intros Hgh. revert k. induction ds as [|d ds IH]; intros k; [reflexivity|].
  cbn [imap map]. rewrite Hgh. f_equal. rewrite <- (IH (S k)). f_equal.
  apply imap_ext. intros i x _. cbn. f_equal. lia.
Qed.

Lemma nonempty_gate (ds : list Listing) :
  ds <> [] ->
  gtb (num_of_nat (length ds)) zero = true
  /\ ~ inject_Z (Z.of_nat (length ds)) == 0.
Proof.
  intros Hne. destruct ds as [|d ds]; [contradiction|].
  assert (H : 0 < inject_Z (Z.of_nat (length (d :: ds)))).
  { change 0 with (inject_Z 0). rewrite <- Zlt_Qlt. cbn [length]. lia. }
  split.
  - unfold gtb, num_of_nat, zero. cbn [ltb]. now apply Qlt_bool_iff.
  - intros E. rewrite E in H. lra.
Qed.

Lemma sum_nan (f : Listing -> num) (ds : list Listing) (acc : num) :
  acc = NaN \/ Exists (fun d => f d = NaN) ds ->
  foldl (fun sum d => add sum (f d)) acc ds = NaN.
Proof.
  revert acc. induction ds as [|d ds IH]; intros acc [Hacc|Hex].
  - exact Hacc.
  - inversion Hex.
  - cbn [foldl]. apply IH. left. now rewrite Hacc.
  - cbn [foldl]. apply IH. inversion Hex as [? ? Hd|? ? Hds]; subst.
    + left. rewrite Hd. destruct acc; reflexivity.
    + right. exact Hds.
Qed.

Lemma min_list_fin (qs : list Q) :
  qs <> [] ->
  exists m : Q,
    min_list (map Fin qs) = Fin m /\ m ∈ qs /\ Forall (fun q => m <= q) qs.
Proof.
  induction qs as [|q qs IH]; [contradiction|]. intros _.
  destruct qs as [|q' qs].
  - exists q. cbn. repeat split; [left|]. repeat constructor. apply Qle_refl.
  - destruct (IH ltac:(discriminate)) as (m & Hm & Hin & Hall).
    cbn [map min_list foldr] in *. unfold min_list in Hm. cbn [foldr] in Hm.
    rewrite Hm. cbn [min2 leb].
    destruct (Qle_bool q m) eqn:E.
    + apply Qle_bool_iff in E. exists q. split; [reflexivity|].
      split; [left|]. constructor; [apply Qle_refl|].
      eapply Forall_impl; [exact Hall|]. intros x Hx. cbn in Hx.
      exact (Qle_trans _ _ _ E Hx).
    + exists m. split; [reflexivity|]. split; [now right|].
      constructor; [|exact Hall].
      apply Qlt_le_weak, Qlt_bool_iff. unfold Qlt_bool. now rewrite E.
Qed.

Lemma min_list_nan (xs : list num) : NaN ∈ xs -> min_list xs = NaN.
Proof.
  induction xs as [|x xs IH]; intros Hin; [now apply elem_of_nil in Hin|].
  cbn [min_list foldr]. fold (min_list xs).
  apply elem_of_cons in Hin as [<-|Hin]; [reflexivity|].
  rewrite (IH Hin). destruct x; reflexivity.
Qed.
End SummaryFacts.

(** X16. The lowest price of the summary. For a nonempty list of deals
    that all have a price, [lowestPrice] is the price of one of the deals
    and no deal has a lower one. If one deal has no price, [lowestPrice]
    and [avgPrice] are both [NaN]. *)
Theorem createMarketOutput_lowestPrice
    (ds : list Listing) (market : Config.Market) (now : string)
    (Hne : ds <> []) :
  let out := Analyze.createMarketOutput ds market now in
  (forall ps : list Q,
     map (fun d => price (prop d)) ds = map Some ps ->
     exists m : Q,
       lowestPrice (summary out) = JS.Fin m
       /\ m ∈ ps /\ Forall (fun p => m <= p) ps)
  /\ (Exists (fun d => price (prop d) = None) ds ->
      lowestPrice (summary out) = JS.NaN
      /\ avgPrice (summary out) = JS.NaN).
Proof.
  cbv zeta. destruct (nonempty_gate ds Hne) as [Hgate _].
  unfold Analyze.createMarketOutput.
  cbn [summary lowestPrice avgPrice]. rewrite Hgate.
  pose proof (formatted_fields
                (fun d => JS.json_number (d_price d))
                (fun l => JS.json_number (price (prop l))) 1 ds
                ltac:(reflexivity)) as Hprices.
  destruct (imap _ ds) as [|d0 formatted] eqn:Ef.
  { destruct ds; [contradiction|discriminate]. }
  rewrite Hprices. split.
  - intros ps Hps.
    assert (E : map (fun l => JS.json_number (price (prop l))) ds
                = map JS.Fin ps).
    { rewrite <- (map_map (fun d => price (prop d)) JS.json_number), Hps.
      rewrite map_map. reflexivity. }
    rewrite E. apply min_list_fin.
    destruct ps; [|discriminate]. destruct ds; [contradiction|discriminate].
  - intros Hex. split.
    + apply min_list_nan. apply Exists_exists in Hex as (d & Hd & Hnone).
      apply list_elem_of_fmap. exists d. rewrite Hnone.
      split; [reflexivity|exact Hd].
    + unfold Analyze.sum_by. rewrite sum_nan; [reflexivity|]. right.
      eapply Exists_impl; [exact Hex|]. intros d Hd. cbn. now rewrite Hd.
Qed.

Lemma createMarketOutput_lowestPrice_witness :
  exists m : Q,
    lowestPrice (summary Scenario.fiveDeals) = JS.Fin m
    /\ Forall (fun p => m <= p) [200000; 200000; 150000; 300000; 150000].
Proof.
  destruct (createMarketOutput_lowestPrice
              (Analyze.calculateInvestmentMetrics Config.config
                 [Scenario.enriched Scenario.A 1800;
                  Scenario.enriched Scenario.A 1700;
                  Scenario.enriched Scenario.C 1350;
                  Scenario.enriched Scenario.B 1500;
                  Scenario.enriched Scenario.C 1200])
              Config.temple_belton "2025-01-26T09:00:00.000Z"
              ltac:(discriminate)) as [Hall _].
  destruct (Hall [200000; 200000; 150000; 300000; 150000] eq_refl)
    as (m & Hm & _ & Hle).
  exists m. split; [exact Hm|exact Hle].
Defined.

Lemma leb_refl (a : JS.num) : JS.is_nan a = false -> JS.leb a a = true.
Proof.
  destruct a; cbn; try discriminate; try reflexivity.
  intros _. apply Qle_bool_iff, Qle_refl.
Qed.

(** X18. The summary of a ranked market reports the best yield of the
    whole input. For a nonempty list of metrics-bearing listings and a
    [topDealsCount] of at least one, [topYield] of the output built from
    the ranking is the gross yield of one of the input listings, and no
    input listing, ranked or cut off, has a greater one. *)
Theorem topYield_is_maximum
    (config : Config.t) (listings : list Listing)
    (market : Config.Market) (now : string)
    (Hmetrics : Forall metrics_bearing listings)
    (Hne : listings <> [])
    (Hcount : (0 < Config.topDealsCount (Config.analysis config))%nat) :
  let out :=
    Analyze.createMarketOutput
      (Analyze.rankAndSelectTopDeals config listings) market now in
  exists (best : Listing) (y : JS.num),
    topYield (summary out) = Some y
    /\ best ∈ listings /\ grossYield best = Some y
    /\ (forall l : Listing, l ∈ listings ->
          JS.geb y (grossYieldKey l) = true).
Proof.
  cbv zeta. rewrite rankAndSelectTopDeals_eq.
  pose proof (sort_descending grossYieldKey listings Hmetrics) as Hdesc.
  pose proof (sort_Permutation (by_key grossYieldKey) listings) as Hperm.
  pose proof (sort_Forall (numeric grossYieldKey) (by_key grossYieldKey)
                listings Hmetrics) as Hnum.
  destruct (sort (by_key grossYieldKey) listings) as [|best sorted] eqn:Es.
  { apply Permutation_nil_l in Hperm. now subst. }
  destruct (Config.topDealsCount (Config.analysis config)) as [|k]; [lia|].
  cbn [take Analyze.createMarketOutput summary topYield imap
       Analyze.formatDealForOutput d_grossYield].
  inversion Hnum as [|? ? Hbest _]; subst.
  unfold numeric, grossYieldKey in Hbest.
  destruct (grossYield best) as [y|] eqn:Ey; [|discriminate].
  exists best, y. split; [reflexivity|]. split.
  { rewrite <- Hperm. left. }
  split; [exact Ey|].
  intros l Hl. rewrite <- Hperm in Hl.
  apply elem_of_cons in Hl as [->|Hl].
  - unfold grossYieldKey. rewrite Ey. exact (leb_refl y Hbest).
  - pose proof (descending_all grossYieldKey best sorted Hdesc) as Hall.
    rewrite Forall_forall in Hall. specialize (Hall l Hl).
    unfold grossYieldKey at 1 in Hall. now rewrite Ey in Hall.
Qed.

Lemma topYield_is_maximum_witness :
  exists (best : Listing) (y : JS.num),
    topYield (summary (Analyze.createMarketOutput
                         (Analyze.rankAndSelectTopDeals Scenario.topTwo
                            Scenario.withMetrics)
                         Config.temple_belton "2025-02-01T08:00:00.000Z"))
    = Some y
    /\ best ∈ Scenario.withMetrics
    /\ JS.geb y (grossYieldKey (Analyze.metricsOf Config.config
                                  (Scenario.enriched Scenario.B 1500)))
       = true.
Proof.
  destruct (topYield_is_maximum Scenario.topTwo Scenario.withMetrics
              Config.temple_belton "2025-02-01T08:00:00.000Z"
              ltac:(repeat constructor) ltac:(discriminate)
              ltac:(repeat constructor))
    as (best & y & Hy & Hin & _ & Hmax).
  exists best, y. split; [exact Hy|]. split; [exact Hin|].
  apply Hmax. left.
Defined.

(** ** The public record of a deal *)

Lemma or_null_nonempty (x : option string) :
  Analyze.or_null x <> Some EmptyString.
Proof.
  unfold Analyze.or_null. destruct x as [s|]; cbn; [|discriminate].
  destruct s; cbn; [discriminate|]. intros [=].
Qed.

(** X19. The strings of a deal are never empty. The id of a deal is the
    id of the listing, else its listing id, else the address line and the
    zip code joined by a dash, and in no case the empty string; the photo
    and the URL are a nonempty string or [null]; the rank is the rank
    given. *)
Theorem formatDealForOutput_strings (listing : Listing) (r : nat) :
  let d := Analyze.formatDealForOutput listing r in
  d_id d <> EmptyString
  /\ (JS.truthy_str (id (prop listing)) = true ->
      Some (d_id d) = id (prop listing))
  /\ (JS.truthy_str (id (prop listing)) = false ->
      JS.truthy_str (listingId (prop listing)) = true ->
      Some (d_id d) = listingId (prop listing))
  /\ (JS.truthy_str (id (prop listing)) = false ->
      JS.truthy_str (listingId (prop listing)) = false ->
      d_id d = JS.tpl (addressLine1 (prop listing)) +:+ "-"
               +:+ JS.tpl (zipCode (prop listing)))
  /\ d_primaryPhoto d <> Some EmptyString
  /\ d_listingUrl d <> Some EmptyString
  /\ rank d = r.
Proof.
  cbv zeta. cbn [Analyze.formatDealForOutput d_id d_primaryPhoto d_listingUrl
                 rank].
  split; [|split; [|split; [|split; [|split; [|split]]]]];
    try apply or_null_nonempty; try reflexivity.
  - pose proof (or_null_nonempty
                  (JS.or_str (id (prop listing)) (listingId (prop listing))))
      as H.
    destruct (Analyze.or_null _) as [s|]; cbn.
    + intros ->. now apply H.
    + destruct (JS.tpl (addressLine1 (prop listing))); discriminate.
  - intros Hid. unfold JS.or_str, Analyze.or_null. rewrite Hid, Hid.
    destruct (id (prop listing)); [reflexivity|discriminate].
  - intros Hid Hlid. unfold JS.or_str, Analyze.or_null. rewrite Hid, Hlid.
    destruct (listingId (prop listing)); [reflexivity|discriminate].
  - intros Hid Hlid. unfold JS.or_str, Analyze.or_null. rewrite Hid, Hlid.
    reflexivity.
Qed.

Lemma formatDealForOutput_strings_witness :
  d_id (Analyze.formatDealForOutput (Scenario.listing Scenario.A) 1)
  <> EmptyString
  /\ d_id (Analyze.formatDealForOutput (Scenario.listing Scenario.A) 1)
     = "undefined-undefined"%string.
Proof.
  destruct (formatDealForOutput_strings (Scenario.listing Scenario.A) 1)
    as [Hid _].
  split; [exact Hid|reflexivity].
Defined.

(** ** Stage 1 followed by stage 2 *)

(** X20. Stage 1 establishes what stage 2 needs. The candidates selected
    from the output of the heuristic filter are in descending order of
    their attached heuristic yield, and the attached yield of every one of
    them reaches [minYieldThreshold]: the yield recomputed by stage 2 is
    the one stage 1 tested. *)
Theorem selectTopCandidates_after_filter
    (config : Config.t) (listings : list Listing) :
  let candidates :=
    Analyze.selectTopCandidates config
      (Analyze.applyHeuristicFilter config listings) in
  descending heuristicYieldKey candidates
  /\ Forall (fun c =>
               JS.geb (heuristicYieldKey c)
                 (JS.Fin (Config.minYieldThreshold (Config.analysis config)))
               = true) candidates.
Proof.
  cbv zeta. rewrite selectTopCandidates_eq. split.
  - apply descending_take, sort_descending, Forall_fmap.
    eapply Forall_impl; [apply applyHeuristicFilter_squareFootage|].
    intros l [s Hs]. exact (heuristicYieldOf_numeric config l s Hs).
  - apply Forall_take, sort_Forall, Forall_fmap.
    apply List.Forall_forall. intros l Hin.
    apply filter_In in Hin as [_ Hpass].
    unfold Analyze.passesHeuristic in Hpass.
    destruct (_ || _); [discriminate|]. exact Hpass.
Qed.

(** ** Stage 3 on a rent of zero *)



